(** * Feature-metadata tables of the glTF feature metadata extension

    A shallow embedding of
    - [GltfFeatureTableAccessorProperty] and [GltfFeatureTableArrayProperty]
      (the binary and the array property variants),
    - [GltfFeatureMetadataCache] (the cache of external resources),
    - [GltfFeatureTable] and [GltfFeature],
    followed by the properties of the specification that concern them. *)

From Stdlib Require Import ZArith QArith Qround Qcanon Lia List Bool Ascii.
From stdpp Require Import gmap strings list fin_maps pretty.

Local Open Scope Z_scope.

(** ** JavaScript numbers

    A number is a finite value, one of the two infinities, or NaN.  Finite
    values are exact rationals kept in lowest terms: the values that occur in
    the normalisation arithmetic (small integers, their quotients by a power
    of two minus one) are computed without rounding error.  The sign of zero
    is not represented; a zero divisor is the positive zero, which is the only
    zero [getMaximumValue] produces.  Sums, products and quotients are exact:
    they are the results of the double precision operations wherever these
    are exact, and only there. *)
Module JsNumber.

Inductive Num :=
  | Fin (q : Q)
  | PosInf
  | NegInf
  | NaN.

Definition ofZ (z : Z) : Num := Fin (inject_Z z).

Definition qzero (q : Q) : bool := Z.eqb (Qnum q) 0.
Definition qneg (q : Q) : bool := Z.ltb (Qnum q) 0.

Definition neg (a : Num) : Num :=
  match a with
  | Fin q => Fin (Qred (Qopp q))
  | PosInf => NegInf
  | NegInf => PosInf
  | NaN => NaN
  end.

Definition sub (a b : Num) : Num :=
  match a, b with
  | NaN, _ | _, NaN => NaN
  | Fin x, Fin y => Fin (Qred (Qminus x y))
  | PosInf, PosInf | NegInf, NegInf => NaN
  | PosInf, _ | _, NegInf => PosInf
  | NegInf, _ | _, PosInf => NegInf
  end.

Definition mul (a b : Num) : Num :=
  match a, b with
  | NaN, _ | _, NaN => NaN
  | Fin x, Fin y => Fin (Qred (Qmult x y))
  | Fin x, PosInf | PosInf, Fin x =>
      if qzero x then NaN else if qneg x then NegInf else PosInf
  | Fin x, NegInf | NegInf, Fin x =>
      if qzero x then NaN else if qneg x then PosInf else NegInf
  | PosInf, PosInf | NegInf, NegInf => PosInf
  | PosInf, NegInf | NegInf, PosInf => NegInf
  end.

Definition div (a b : Num) : Num :=
  match a, b with
  | NaN, _ | _, NaN => NaN
  | Fin x, Fin y =>
      if qzero y then
        if qzero x then NaN else if qneg x then NegInf else PosInf
      else Fin (Qred (Qdiv x y))
  | Fin _, (PosInf | NegInf) => Fin 0
  | PosInf, Fin y => if qneg y then NegInf else PosInf
  | NegInf, Fin y => if qneg y then PosInf else NegInf
  | (PosInf | NegInf), (PosInf | NegInf) => NaN
  end.

(** [Math.max] of two numbers. *)
Definition max (a b : Num) : Num :=
  match a, b with
  | NaN, _ | _, NaN => NaN
  | PosInf, _ | _, PosInf => PosInf
  | NegInf, x | x, NegInf => x
  | Fin x, Fin y => if Qle_bool x y then Fin y else Fin x
  end.

(** [Math.round]: the nearest integer, halves going up. *)
Definition round (a : Num) : Num :=
  match a with
  | Fin x => ofZ (Qfloor (Qplus x (1 # 2)))
  | other => other
  end.

(** [Math.pow(2, e)] for an integer exponent. *)
Definition pow2 (e : Z) : Num := Fin (Qred (Qpower (2 # 1) e)).

Definition leb (a b : Num) : bool :=
  match a, b with
  | NaN, _ | _, NaN => false
  | NegInf, _ | _, PosInf => true
  | PosInf, _ | _, NegInf => false
  | Fin x, Fin y => Qle_bool x y
  end.

(** The integer nearest to [n / d] for [0 <= n] and [0 < d], ties going to
    the even one. *)
Definition roundHalfEven (n d : Z) : Z :=
  let f := n / d in
  let r := 2 * (n mod d) in
  if r <? d then f
  else if d <? r then f + 1
  else if Z.even f then f else f + 1.

(** The nearest value of a binary floating point format, ties to even:
    [precision] bits, exponents from [emin] up, subnormal values below, the
    infinities from the midpoint below [2^limit] on. *)
Definition roundTo (precision emin limit : Z) (a : Num) : Num :=
  match a with
  | Fin q =>
      let n := Z.abs (Qnum q) in
      let d := Zpos (Qden q) in
      if n =? 0 then Fin 0
      else
        let e0 := Z.log2 n - Z.log2 d in
        let e := if (if 0 <=? e0 then d * 2 ^ e0 <=? n else d <=? n * 2 ^ (- e0))
                 then e0 else e0 - 1 in
        let u := Z.max e emin - (precision - 1) in
        let r := if 0 <=? u then roundHalfEven n (d * 2 ^ u)
                 else roundHalfEven (n * 2 ^ (- u)) d in
        if (if 0 <=? u then 2 ^ limit <=? r * 2 ^ u else false)
        then (if Qnum q <? 0 then NegInf else PosInf)
        else
          let m := if Qnum q <? 0 then - r else r in
          Fin (Qred (if 0 <=? u then inject_Z (m * 2 ^ u)
                     else Qmake m (Z.to_pos (2 ^ (- u)))))
  | other => other
  end.

(** [Math.fround]: the nearest single precision value. *)
Definition fround (a : Num) : Num := roundTo 24 (-126) 128 a.

(** The nearest double precision value: the number a literal denotes. *)
Definition dround (a : Num) : Num := roundTo 53 (-1022) 1024 a.

(** [|a - b| <= d], false as soon as one side is NaN. *)
Definition within (d a b : Num) : bool :=
  leb (sub a b) d && leb (sub b a) d.

End JsNumber.
Export JsNumber.

(** ** Component datatypes *)

Inductive ComponentDatatype :=
  | BYTE
  | UNSIGNED_BYTE
  | SHORT
  | UNSIGNED_SHORT
  | INT
  | UNSIGNED_INT
  | FLOAT
  | DOUBLE.

(** Modelled from the spec: [ComponentDatatype.getSizeInBytes] lives in
    [Core/ComponentDatatype.js], which is not among the verified sources.
    The specification gives the integer component types the byte widths 1, 2
    and 4; the floating point types have their usual widths. *)
Definition getSizeInBytes (componentType : ComponentDatatype) : Z :=
  match componentType with
  | BYTE | UNSIGNED_BYTE => 1
  | SHORT | UNSIGNED_SHORT => 2
  | INT | UNSIGNED_INT | FLOAT => 4
  | DOUBLE => 8
  end.

Definition isSignedComponentType (componentType : ComponentDatatype) : bool :=
  match componentType with
  | BYTE | SHORT | INT => true
  | _ => false
  end.

Definition isUnsignedComponentType (componentType : ComponentDatatype) : bool :=
  match componentType with
  | UNSIGNED_BYTE | UNSIGNED_SHORT | UNSIGNED_INT => true
  | _ => false
  end.

Definition isNormalized (normalized : bool) (componentType : ComponentDatatype) : bool :=
  normalized &&
  (isSignedComponentType componentType || isUnsignedComponentType componentType).

Definition getMaximumValue (componentType : ComponentDatatype) : Num :=
  let bitDepth := getSizeInBytes componentType in
  if isSignedComponentType componentType then
    sub (pow2 (bitDepth - 1)) (ofZ 1)
  else if isUnsignedComponentType componentType then
    sub (pow2 bitDepth) (ofZ 1)
  else PosInf.

Definition getLowestValue (componentType : ComponentDatatype) : Num :=
  let bitDepth := getSizeInBytes componentType in
  if isSignedComponentType componentType then
    neg (pow2 (bitDepth - 1))
  else if isUnsignedComponentType componentType then
    ofZ 0
  else NegInf.

(** ** Exceptions *)

Inductive Error :=
  | DeveloperError (message : string)
  | TypeError
  | RangeError.

Inductive Result (A : Type) :=
  | Ok (a : A)
  | Throw (e : Error).
Arguments Ok {A} a.
Arguments Throw {A} e.

Global Instance Result_ret : MRet Result := fun A a => Ok a.
Global Instance Result_bind : MBind Result := fun A B k r =>
  match r with
  | Ok a => k a
  | Throw e => Throw e
  end.

Definition succeeded {A : Type} (r : Result A) : bool :=
  match r with Ok _ => true | Throw _ => false end.

(** ** Values *)

(** Modelled from the spec: the vector and matrix classes ([Cartesian2] ..
    [Matrix4] of [Core]) are not among the verified sources.  A composite
    value is its class and its packed components, in packing order; [ZERO],
    [clone], [pack] and [unpack] move these components around unchanged. *)
Inductive ClassType :=
  | Cartesian2
  | Cartesian3
  | Cartesian4
  | Matrix2
  | Matrix3
  | Matrix4.

Definition packedLength (classType : ClassType) : nat :=
  match classType with
  | Cartesian2 => 2
  | Cartesian3 => 3
  | Cartesian4 => 4
  | Matrix2 => 4
  | Matrix3 => 9
  | Matrix4 => 16
  end%nat.

Definition isMatrix (classType : ClassType) : bool :=
  match classType with
  | Matrix2 | Matrix3 | Matrix4 => true
  | _ => false
  end.

Global Instance ClassType_eq_dec : EqDecision ClassType.
Proof. solve_decision. Defined.

(** Structured (JSON-like) data, as [JSON.parse] hands it over: the members
    of an object are listed once each, by name; strings are sequences of
    code units. *)
#[local] Unset Elimination Schemes.
Inductive JSON :=
  | JNull
  | JBool (b : bool)
  | JNum (n : Num)
  | JStr (s : string)
  | JArr (items : list JSON)
  | JObj (fields : list (string * JSON)).
#[local] Set Elimination Schemes.

(** What a caller can pass and receive: [undefined], structured data, an
    instance of a vector or matrix class whose components are numbers or
    [undefined], or an object of the language itself (a prototype such as
    [Object.prototype], or one of its members such as
    [Object.prototype.toString]), named by its path. *)
Inductive Value :=
  | VUndefined
  | VJson (j : JSON)
  | VComposite (classType : ClassType) (components : list (option Num))
  | VBuiltin (path : string).

Definition VNumber (n : Num) : Value := VJson (JNum n).

(** Deep copy ([clone(value, true)]): values are held by value here, so the
    copy has the same contents; sharing is tracked by the store that holds
    the sequences (see [ArrayProperty]). *)
Definition clone (v : Value) : Value := v.

(** *** Conversion to a number

    [StringToNumber]: white space is trimmed; the empty string is zero; a
    signed decimal literal with optional fraction and exponent, [Infinity]
    with an optional sign, and unsigned literals in base 16, 8 and 2 are
    their values, rounded to double precision; anything else is NaN. *)
Definition bytes (codes : list nat) : string :=
  foldr (fun c s => String (Ascii.ascii_of_nat c) s) EmptyString codes.

(** The white space and line terminator characters, in UTF-8. *)
Definition whiteSpace : list string :=
  map bytes
    ([[9]; [10]; [11]; [12]; [13]; [32]; [194; 160]; [225; 154; 128]]
     ++ map (fun c => [226; 128; c]) (seq 128 11)
     ++ [[226; 128; 168]; [226; 128; 169]; [226; 128; 175]; [226; 129; 159];
         [227; 128; 128]; [239; 187; 191]])%nat.

Fixpoint trimStartWith (patterns : list string) (fuel : nat) (s : string)
    : string :=
  match fuel with
  | O => s
  | S fuel =>
      match list_find (fun w => String.prefix w s) patterns with
      | Some (_, w) =>
          trimStartWith patterns fuel
            (String.substring (String.length w)
               (String.length s - String.length w) s)
      | None => s
      end
  end.

Definition trim (s : string) : string :=
  let s := trimStartWith whiteSpace (String.length s) s in
  String.rev
    (trimStartWith (map String.rev whiteSpace) (String.length s) (String.rev s)).

Definition digitOf (base : Z) (a : Ascii.ascii) : option Z :=
  let c := Z.of_nat (Ascii.nat_of_ascii a) in
  let v := if (48 <=? c) && (c <=? 57) then Some (c - 48)
           else if (97 <=? c) && (c <=? 102) then Some (c - 87)
           else if (65 <=? c) && (c <=? 70) then Some (c - 55)
           else None in
  match v with
  | Some d => if d <? base then Some d else None
  | None => None
  end.

(** The longest run of digits at the head of [s]: the value it adds to
    [acc], the number of digits, and what follows. *)
Fixpoint digits (base : Z) (s : string) (acc count : Z) : Z * Z * string :=
  match s with
  | String a rest =>
      match digitOf base a with
      | Some d => digits base rest (acc * base + d) (count + 1)
      | None => (acc, count, s)
      end
  | EmptyString => (acc, count, s)
  end.

Definition unsignedLiteral (base : Z) (s : string) : Num :=
  let '(value, count, rest) := digits base s 0 0 in
  if (0 <? count) && bool_decide (rest = EmptyString)
  then dround (ofZ value) else NaN.

Definition signOf (s : string) : bool * string :=
  match s with
  | String "-"%char rest => (true, rest)
  | String "+"%char rest => (false, rest)
  | _ => (false, s)
  end.

Definition decimalLiteral (s : string) : Num :=
  let '(negative, s) := signOf s in
  if bool_decide (s = "Infinity") then (if negative then NegInf else PosInf)
  else
    let '(mantissa, integerDigits, rest) := digits 10 s 0 0 in
    let '(mantissa, fractionDigits, rest) :=
      match rest with
      | String "."%char rest => digits 10 rest mantissa 0
      | _ => (mantissa, 0, rest)
      end in
    let exponent :=
      match rest with
      | EmptyString => Some 0
      | String c rest =>
          if bool_decide (c = "e"%char) || bool_decide (c = "E"%char) then
            let '(negativeExponent, rest) := signOf rest in
            let '(value, count, rest) := digits 10 rest 0 0 in
            if (0 <? count) && bool_decide (rest = EmptyString)
            then Some (if negativeExponent then - value else value)
            else None
          else None
      end in
    match exponent with
    | Some e =>
        if 0 <? integerDigits + fractionDigits then
          let m := if negative then - mantissa else mantissa in
          dround (Fin (Qred (inject_Z m * Qpower (10 # 1) (e - fractionDigits))))
        else NaN
    | None => NaN
    end.

Definition StringToNumber (s : string) : Num :=
  match trim s with
  | EmptyString => ofZ 0
  | String "0"%char (String c rest) as t =>
      if bool_decide (c = "x"%char) || bool_decide (c = "X"%char)
      then unsignedLiteral 16 rest
      else if bool_decide (c = "o"%char) || bool_decide (c = "O"%char)
      then unsignedLiteral 8 rest
      else if bool_decide (c = "b"%char) || bool_decide (c = "B"%char)
      then unsignedLiteral 2 rest
      else decimalLiteral t
  | t => decimalLiteral t
  end.

(** [ToNumber] of structured data.  An array and an object convert through
    their string: the elements of an array joined by commas ([null] giving
    the empty string), [[object Object]] for an object. *)
Fixpoint jsonToNumber (j : JSON) : Num :=
  match j with
  | JNull => ofZ 0
  | JBool b => if b then ofZ 1 else ofZ 0
  | JNum n => n
  | JStr s => StringToNumber s
  | JArr [] => ofZ 0
  | JArr [item] =>
      match item with
      | JNull => ofZ 0
      | JBool _ | JObj _ => NaN
      | _ => jsonToNumber item
      end
  | JArr _ => NaN
  | JObj _ => NaN
  end.

(** [ToNumber].  An instance of a vector or matrix class converts through
    its [toString], which is no number; so do the functions of the language
    and [Object.prototype]; the other prototypes hold an empty value, which
    is zero. *)
Definition ToNumber (v : Value) : Num :=
  match v with
  | VUndefined => NaN
  | VJson j => jsonToNumber j
  | VComposite _ _ => NaN
  | VBuiltin path =>
      if bool_decide (path ∈ ["Array.prototype"; "String.prototype";
                              "Number.prototype"; "Boolean.prototype"])
      then ofZ 0 else NaN
  end.

(** *** Members

    The prototypes of the language and the names of their members, as the
    language specification lists them. *)
Definition objectPrototype : list string :=
  ["constructor"; "__defineGetter__"; "__defineSetter__"; "hasOwnProperty";
   "__lookupGetter__"; "__lookupSetter__"; "isPrototypeOf";
   "propertyIsEnumerable"; "toString"; "valueOf"; "__proto__";
   "toLocaleString"].

Definition arrayPrototype : list string :=
  ["length"; "constructor"; "at"; "concat"; "copyWithin"; "fill"; "find";
   "findIndex"; "findLast"; "findLastIndex"; "lastIndexOf"; "pop"; "push";
   "reverse"; "shift"; "unshift"; "slice"; "sort"; "splice"; "includes";
   "indexOf"; "join"; "keys"; "entries"; "values"; "forEach"; "filter";
   "flat"; "flatMap"; "map"; "every"; "some"; "reduce"; "reduceRight";
   "toReversed"; "toSorted"; "toSpliced"; "with"; "toLocaleString";
   "toString"].

Definition stringPrototype : list string :=
  ["length"; "constructor"; "anchor"; "at"; "big"; "blink"; "bold"; "charAt";
   "charCodeAt"; "codePointAt"; "concat"; "endsWith"; "fontcolor";
   "fontsize"; "fixed"; "includes"; "indexOf"; "isWellFormed"; "italics";
   "lastIndexOf"; "link"; "localeCompare"; "match"; "matchAll"; "normalize";
   "padEnd"; "padStart"; "repeat"; "replace"; "replaceAll"; "search";
   "slice"; "small"; "split"; "strike"; "sub"; "substr"; "substring"; "sup";
   "startsWith"; "toString"; "toWellFormed"; "trim"; "trimStart";
   "trimLeft"; "trimEnd"; "trimRight"; "toLocaleLowerCase";
   "toLocaleUpperCase"; "toLowerCase"; "toUpperCase"; "valueOf"].

Definition numberPrototype : list string :=
  ["constructor"; "toExponential"; "toFixed"; "toPrecision"; "toString";
   "valueOf"; "toLocaleString"].

Definition booleanPrototype : list string :=
  ["constructor"; "toString"; "valueOf"].

Definition prototypes : list string :=
  ["Object.prototype"; "Array.prototype"; "String.prototype";
   "Number.prototype"; "Boolean.prototype"].

(** The member a value inherits under [key] along its chain of prototypes,
    [undefined] when none has it.  [__proto__] is the accessor of
    [Object.prototype]: it returns the prototype of the value. *)
Definition inherited (chain : list (string * list string)) (key : string)
    : Value :=
  if bool_decide (key = "__proto__") then
    match chain with
    | (path, _) :: _ => VBuiltin path
    | [] => VUndefined
    end
  else
    match list_find (fun pn => bool_decide (key ∈ pn.2)) chain with
    | Some (_, (path, _)) => VBuiltin (path ++ "." ++ key)
    | None => VUndefined
    end.

Definition objectChain : list (string * list string) :=
  [("Object.prototype", objectPrototype)].

(** The index that [key] names in a sequence of [length] elements: [key] is
    the decimal writing of the index. *)
Definition indexOfKey (key : string) (length : nat) : option nat :=
  fst <$> list_find (fun i => bool_decide (pretty i = key)) (seq 0 length).

(** [json[key]]: reading a member of structured data.  Reading from [null]
    raises.  An object has the members listed; an array and a string have
    their elements and their length; every value inherits the members of
    its prototypes. *)
Definition getMember (json : JSON) (key : string) : Result Value :=
  match json with
  | JNull => Throw TypeError
  | JObj fields =>
      Ok (match list_find (fun kv => bool_decide (kv.1 = key)) fields with
          | Some (_, (_, v)) => VJson v
          | None => inherited objectChain key
          end)
  | JArr items =>
      Ok (match indexOfKey key (length items) ≫= (fun i => items !! i) with
          | Some item => VJson item
          | None =>
              if bool_decide (key = "length")
              then VNumber (ofZ (Z.of_nat (length items)))
              else inherited (("Array.prototype", arrayPrototype) :: objectChain) key
          end)
  | JStr s =>
      Ok (match indexOfKey key (String.length s) with
          | Some i => VJson (JStr (String.substring i 1 s))
          | None =>
              if bool_decide (key = "length")
              then VNumber (ofZ (Z.of_nat (String.length s)))
              else inherited (("String.prototype", stringPrototype) :: objectChain) key
          end)
  | JNum _ =>
      Ok (inherited (("Number.prototype", numberPrototype) :: objectChain) key)
  | JBool _ =>
      Ok (inherited (("Boolean.prototype", booleanPrototype) :: objectChain) key)
  end.

(** [typeof value] *)
Definition typeOf (value : Value) : string :=
  match value with
  | VJson (JStr _) => "string"
  | VJson (JNum _) => "number"
  | VJson (JBool _) => "boolean"
  | VUndefined => "undefined"
  | VBuiltin path =>
      if bool_decide (path ∈ prototypes) then "object" else "function"
  | _ => "object"
  end.

Definition ofComponent (c : option Num) : Value :=
  match c with
  | Some n => VNumber n
  | None => VUndefined
  end.

Definition ZERO (classType : ClassType) : Value :=
  VComposite classType (replicate (packedLength classType) (Some (ofZ 0))).

(** [classType.unpack(array, startingIndex, result)]: the components are read
    from consecutive slots; a slot outside the array reads [undefined]. *)
Definition unpack (classType : ClassType) (array : list (option Num))
    (startingIndex : nat) : Value :=
  VComposite classType
    (map (fun i => mjoin (array !! (startingIndex + i)%nat))
         (seq 0 (packedLength classType))).

(** The names under which [classType.pack] reads the components of
    [value]: [x], [y], [z], [w] for a vector, the indices for a matrix. *)
Definition componentNames (classType : ClassType) : list string :=
  if isMatrix classType
  then map pretty (seq 0 (packedLength classType))
  else take (packedLength classType) ["x"; "y"; "z"; "w"].

(** What [classType.pack] reads from [value].  The library checks that
    [value] is of type object first ([Check.typeOf.object]); reading a
    component of [null] raises; an instance of a class of the same family
    (vector or matrix) has its components, [undefined] past the last; an
    object and an array have the members of these names. *)
Definition packedComponents (classType : ClassType) (value : Value)
    : Result (list Value) :=
  if negb (String.eqb (typeOf value) "object") then
    Throw (DeveloperError
             ("Expected value to be typeof object, actual typeof was "
              ++ typeOf value))
  else
    match value with
    | VComposite c components =>
        Ok (if bool_decide (isMatrix c = isMatrix classType)
            then map (fun i => ofComponent (mjoin (components !! i)))
                     (seq 0 (packedLength classType))
            else replicate (packedLength classType) VUndefined)
    | VJson JNull => Throw TypeError
    | VJson json =>
        Ok (map (fun name => match getMember json name with
                             | Ok v => v
                             | Throw _ => VUndefined
                             end)
                (componentNames classType))
    | _ => Ok (replicate (packedLength classType) VUndefined)
    end.

(** ** Typed arrays *)

(** Storing a number in a typed array converts it to the element type:
    integer types truncate towards zero and wrap modulo the width, NaN and
    the infinities become zero; the single precision type rounds to the
    nearest of its values; the double precision type keeps the number. *)
Definition toElement (componentType : ComponentDatatype) (n : Num) : Num :=
  if isSignedComponentType componentType || isUnsignedComponentType componentType
  then
    let bits := 8 * getSizeInBytes componentType in
    match n with
    | Fin q =>
        let m := (Z.quot (Qnum q) (Zpos (Qden q))) mod 2 ^ bits in
        if isSignedComponentType componentType && (2 ^ (bits - 1) <=? m)
        then ofZ (m - 2 ^ bits)
        else ofZ m
    | _ => ofZ 0
    end
  else
    match componentType with
    | FLOAT => fround n
    | _ => n
    end.

(** [ComponentDatatype.createTypedArray(componentType, length)]: zero filled. *)
Definition createTypedArray (componentType : ComponentDatatype) (length : nat)
    : list Num :=
  replicate length (ofZ 0).

(** [typedArray[index] = value]; a typed array does not grow. *)
Definition typedArraySet (componentType : ComponentDatatype)
    (typedArray : list Num) (index : nat) (value : Num) : list Num :=
  <[index := toElement componentType value]> typedArray.

(** [typedArray[index]], [undefined] outside the array. *)
Definition typedArrayGet (typedArray : list Num) (index : nat) : Value :=
  ofComponent (typedArray !! index).

(** ** The glTF document, as far as the properties read it *)

Module BufferSource.
(** The bytes of a loaded buffer (a [Uint8Array]) and its own offset. *)
Record t := { bytes : list Z; byteOffset : Z }.
End BufferSource.

(** Modelled from the library: [ComponentDatatype.createArrayBufferView
    (componentType, buffer, byteOffset, length)] lives in
    [Core/ComponentDatatype.js], which is not among the verified sources.  It
    returns [new T(buffer, byteOffset, length)] for the typed array class [T]
    of the component type.  The buffer it is handed by the property is a
    typed array of bytes, and a typed array made from a typed array is a
    copy of its elements, each converted to the element type: the offset and
    the length are not read. *)
Module Library.
Definition createArrayBufferView (componentType : ComponentDatatype)
    (buffer : BufferSource.t) (byteOffset : Z) (length : nat)
    : Result (list Num) :=
  Ok ((fun byte => toElement componentType (ofZ byte)) <$> BufferSource.bytes buffer).
End Library.

Module Accessor.
Inductive AccessorType := SCALAR | VEC2 | VEC3 | VEC4 | MAT2 | MAT3 | MAT4.
(** [bufferViewId] is not a member of a glTF accessor; the constructor of
    the binary property reads it all the same, so the record carries it. *)
Record t := {
  bufferView : option nat;
  bufferViewId : option nat;
  byteOffset : Z;
  componentType : ComponentDatatype;
  normalized : bool;
  count : nat;
  type : AccessorType
}.
End Accessor.

Module BufferView.
Record t := { buffer : nat; byteOffset : Z }.
End BufferView.

Module Buffer.
Record Pipeline := { source : option BufferSource.t }.
Record Extras := { _pipeline : option Pipeline }.
Record t := { uri : option string; extras : option Extras }.
End Buffer.

Module Gltf.
Record t := {
  accessors : list Accessor.t;
  bufferViews : list BufferView.t;
  buffers : list Buffer.t
}.
End Gltf.

(** An entry of [featureTable.featureProperties]. *)
Module FeatureProperty.
Inductive ArrayType := STRING_ARRAY | NUMBER_ARRAY | BOOLEAN_ARRAY | OTHER_ARRAY.
Record External := { uri : string; key : string }.
Record ArrayJson := {
  type : ArrayType;
  values : option (list Value);
  external : option External
}.
Record t := {
  descriptor : option Value;
  accessor : option nat;
  array : option ArrayJson;
  semantic : option string;
  extras : Value
}.
End FeatureProperty.

(** Modelled from the spec: [GltfFeatureTablePropertyType] is not among the
    verified sources.  The declared value types are the scalar number, the
    vectors and square matrices, string, boolean, and any structured value. *)
Module GltfFeatureTablePropertyType.
Inductive t :=
  | NUMBER | VEC2 | VEC3 | VEC4 | MAT2 | MAT3 | MAT4 | STRING | BOOLEAN | ANY.

Global Instance eq_dec : EqDecision t.
Proof. solve_decision. Defined.

Definition getTypeFromAccessorType (type : Accessor.AccessorType) : t :=
  match type with
  | Accessor.SCALAR => NUMBER
  | Accessor.VEC2 => VEC2
  | Accessor.VEC3 => VEC3
  | Accessor.VEC4 => VEC4
  | Accessor.MAT2 => MAT2
  | Accessor.MAT3 => MAT3
  | Accessor.MAT4 => MAT4
  end.

Definition getTypeFromArrayType (type : FeatureProperty.ArrayType) : t :=
  match type with
  | FeatureProperty.STRING_ARRAY => STRING
  | FeatureProperty.NUMBER_ARRAY => NUMBER
  | FeatureProperty.BOOLEAN_ARRAY => BOOLEAN
  | FeatureProperty.OTHER_ARRAY => ANY
  end.
End GltfFeatureTablePropertyType.

(** Modelled from the spec: [getBinaryAccessor] is not among the verified
    sources.  It yields the component count of the accessor type (1 for a
    scalar, 2, 3, 4 for vectors, 4, 9, 16 for matrices) and the class of its
    values, which a scalar does not have. *)
Module BinaryAccessor.
Record t := {
  componentsPerAttribute : nat;
  classType : option ClassType
}.
End BinaryAccessor.

Definition getBinaryAccessor (accessor : Accessor.t) : BinaryAccessor.t :=
  match Accessor.type accessor with
  | Accessor.SCALAR => BinaryAccessor.Build_t 1 None
  | Accessor.VEC2 => BinaryAccessor.Build_t 2 (Some Cartesian2)
  | Accessor.VEC3 => BinaryAccessor.Build_t 3 (Some Cartesian3)
  | Accessor.VEC4 => BinaryAccessor.Build_t 4 (Some Cartesian4)
  | Accessor.MAT2 => BinaryAccessor.Build_t 4 (Some Matrix2)
  | Accessor.MAT3 => BinaryAccessor.Build_t 9 (Some Matrix3)
  | Accessor.MAT4 => BinaryAccessor.Build_t 16 (Some Matrix4)
  end.

(** What a call into the cache hands back to a constructor: something with a
    [then] method (a promise, identified by a number), or a plain value. *)
Inductive CacheReply :=
  | ReplyPromise (id : nat)
  | ReplyPlain.

(** The cache as the constructors see it: what its two methods return for the
    argument they are called with. *)
Module CacheObject.
Record t := {
  getExternalValues : FeatureProperty.External -> CacheReply;
  getExternalBuffer : option string -> CacheReply
}.
End CacheObject.

Module Options.
Record t := {
  gltf : Gltf.t;
  name : string;
  property : FeatureProperty.t;
  cache : CacheObject.t
}.
End Options.

(** ** The binary (accessor) property *)

Module GltfFeatureTableAccessorProperty.

Record t := {
  _componentType : ComponentDatatype;
  _componentCount : nat;
  _count : nat;
  _classType : option ClassType;
  _typedArray : option (list Num);
  _signed : bool;
  _normalized : bool;
  _lowestValue : Num;
  _maximumValue : Num;
  _initializedWithZeros : bool;
  _name : string;
  _semantic : option string;
  _type : GltfFeatureTablePropertyType.t;
  _extras : Value
}.

(** [this._typedArray = typedArray; this._initializedWithZeros = flag] *)
Definition assign (this : t) (typedArray : option (list Num)) (flag : bool) : t :=
  {| _componentType := _componentType this;
     _componentCount := _componentCount this;
     _count := _count this;
     _classType := _classType this;
     _typedArray := typedArray;
     _signed := _signed this;
     _normalized := _normalized this;
     _lowestValue := _lowestValue this;
     _maximumValue := _maximumValue this;
     _initializedWithZeros := flag;
     _name := _name this;
     _semantic := _semantic this;
     _type := _type this;
     _extras := _extras this |}.

Definition decodeValue (property : t) (value : Value) : Value :=
  if negb (_normalized property) then value
  else if _signed property then
    VNumber (max (div (ToNumber value) (_maximumValue property)) (neg (ofZ 1)))
  else VNumber (div (ToNumber value) (_maximumValue property)).

Definition encodeValue (property : t) (value : Value) : Value :=
  if negb (_normalized property) then value
  else VNumber (round (mul (ToNumber value) (_maximumValue property))).

(** [classType.f(...)] where [classType] may be [undefined]. *)
Definition theClass (classType : option ClassType) : Result ClassType :=
  match classType with
  | Some c => Ok c
  | None => Throw TypeError
  end.

Definition asComponent (v : Value) : option Num :=
  match v with
  | VJson (JNum n) => Some n
  | _ => None
  end.

(** [getValue(featureId, result)].  The value returned has the contents
    computed here whether it is a new instance or the [result] object. *)
Definition getValue (this : t) (featureId : nat) (result : option Value)
    : Result Value :=
  let componentCount := _componentCount this in
  let classType := _classType this in
  let typedArray := _typedArray this in
  let normalized := _normalized this in
  let initializedWithZeros := _initializedWithZeros this in
  let startingIndex := (featureId * componentCount)%nat in
  if initializedWithZeros then
    if (componentCount =? 1)%nat then Ok (VNumber (ofZ 0))
    else c ← theClass classType; Ok (ZERO c)
  else
    match typedArray with
    | None => Ok VUndefined
    | Some typedArray =>
        if (componentCount =? 1)%nat then
          if normalized
          then Ok (decodeValue this (typedArrayGet typedArray startingIndex))
          else Ok (typedArrayGet typedArray startingIndex)
        else if normalized then
          c ← theClass classType;
          let packedArray :=
            map (fun i => asComponent
                   (decodeValue this (typedArrayGet typedArray (startingIndex + i))))
                (seq 0 (packedLength c)) in
          Ok (unpack c packedArray 0)
        else
          c ← theClass classType;
          Ok (unpack c (Some <$> typedArray) startingIndex)
    end.

(** [classType.pack(value, typedArray, startingIndex)] *)
Definition pack (componentType : ComponentDatatype) (classType : ClassType)
    (value : Value) (typedArray : list Num) (startingIndex : nat)
    : Result (list Num) :=
  components ← packedComponents classType value;
  Ok (foldl (fun array ic =>
               typedArraySet componentType array (startingIndex + ic.1)
                 (ToNumber ic.2))
            typedArray
            (imap (fun i c => (i, c)) components)).

(** The loop that encodes the slots just packed. *)
Definition encodePacked (this : t) (packedLength : nat) (typedArray : list Num)
    (startingIndex : nat) : list Num :=
  foldl (fun array i =>
           let index := (startingIndex + i)%nat in
           typedArraySet (_componentType this) array index
             (ToNumber (encodeValue this (typedArrayGet array index))))
        typedArray (seq 0 packedLength).

(** [setValue(featureId, value)]: the property comes back as the call
    leaves it.  Where the call raises, what it had assigned before is not
    represented. *)
Definition setValue (this : t) (featureId : nat) (value : Value) : Result t :=
  let componentType := _componentType this in
  let componentCount := _componentCount this in
  let count := _count this in
  let classType := _classType this in
  let normalized := _normalized this in
  let startingIndex := (featureId * componentCount)%nat in
  let this :=
    if _initializedWithZeros this
    then assign this (Some (createTypedArray componentType (componentCount * count))) false
    else this in
  match _typedArray this with
  | None => Ok this
  | Some typedArray =>
      if (componentCount =? 1)%nat then
        if normalized then
          Ok (assign this
                (Some (typedArraySet componentType typedArray startingIndex
                         (ToNumber (encodeValue this value))))
                (_initializedWithZeros this))
        else
          Ok (assign this
                (Some (typedArraySet componentType typedArray startingIndex
                         (ToNumber value)))
                (_initializedWithZeros this))
      else
        c ← theClass classType;
        typedArray ← pack componentType c value typedArray startingIndex;
        let typedArray :=
          if normalized
          then encodePacked this (packedLength c) typedArray startingIndex
          else typedArray in
        Ok (assign this (Some typedArray) (_initializedWithZeros this))
  end.

Section Construction.

(** [ComponentDatatype.createArrayBufferView(componentType, buffer, byteOffset,
    length)] is not among the verified sources; it is a parameter of the
    constructor, which [Library.createArrayBufferView] instantiates. *)
Variable createArrayBufferView :
  ComponentDatatype -> BufferSource.t -> Z -> nat -> Result (list Num).

Definition getBuffer (gltf : Gltf.t) (accessor : Accessor.t)
    : Result (option Buffer.t) :=
  match Accessor.bufferView accessor with
  | None => Ok None
  | Some bufferViewId =>
      match Gltf.bufferViews gltf !! bufferViewId with
      | None => Throw TypeError
      | Some bufferView =>
          Ok (Gltf.buffers gltf !! BufferView.buffer bufferView)
      end
  end.

Definition getBufferSource (gltf : Gltf.t) (accessor : Accessor.t)
    : Result (option BufferSource.t) :=
  buffer ← getBuffer gltf accessor;
  match buffer with
  | None => Ok None
  | Some buffer =>
      match Buffer.extras buffer with
      | None => Ok None
      | Some extras =>
          match Buffer._pipeline extras with
          | None => Ok None
          | Some pipelineExtras => Ok (Buffer.source pipelineExtras)
          end
      end
  end.

(** [binaryAccessor.createArrayBufferView(bufferSource, byteOffset, count)]
    is the view of [componentsPerAttribute * count] components. *)
Definition getTypedArrayForAccessor (gltf : Gltf.t) (accessor : Accessor.t)
    (bufferSource : option BufferSource.t) (binaryAccessor : BinaryAccessor.t)
    : Result (option (list Num)) :=
  match bufferSource, Accessor.bufferView accessor with
  | Some bufferSource, Some bufferViewId =>
      match Gltf.bufferViews gltf !! bufferViewId with
      | None => Throw TypeError
      | Some bufferView =>
          let byteOffset :=
            BufferSource.byteOffset bufferSource
            + BufferView.byteOffset bufferView
            + Accessor.byteOffset accessor in
          typedArray ← createArrayBufferView (Accessor.componentType accessor)
            bufferSource byteOffset
            (BinaryAccessor.componentsPerAttribute binaryAccessor
             * Accessor.count accessor)%nat;
          Ok (Some typedArray)
      end
  | _, _ => Ok None
  end.

(** The continuation the constructor attaches to the reply of
    [cache.getExternalBuffer]: it binds the view decoded from the buffer that
    arrived, and assigns nothing else. *)
Definition bindExternalBuffer (gltf : Gltf.t) (accessor : Accessor.t)
    (binaryAccessor : BinaryAccessor.t) (that : t)
    (bufferSource : BufferSource.t) : Result t :=
  typedArray ← getTypedArrayForAccessor gltf accessor (Some bufferSource)
                 binaryAccessor;
  Ok (assign that typedArray (_initializedWithZeros that)).

(** The constructor.  Besides the property it returns the promise its
    continuation [bindExternalBuffer] waits on, when it asked the cache for
    the buffer. *)
Definition new (options : Options.t) : Result (t * option nat) :=
  let gltf := Options.gltf options in
  let name := Options.name options in
  let property := Options.property options in
  let cache := Options.cache options in
  accessor ←
    match FeatureProperty.accessor property
            ≫= fun accessorId => Gltf.accessors gltf !! accessorId with
    | Some accessor => Ok accessor
    | None => Throw TypeError
    end;
  let type := Accessor.type accessor in
  let componentType := Accessor.componentType accessor in
  let count := Accessor.count accessor in
  let binaryAccessor := getBinaryAccessor accessor in
  let normalized := isNormalized (Accessor.normalized accessor) componentType in
  buffer ← getBuffer gltf accessor;
  bufferSource ← getBufferSource gltf accessor;
  typedArray ← getTypedArrayForAccessor gltf accessor bufferSource binaryAccessor;
  pending ←
    match typedArray, buffer with
    | None, Some buffer =>
        match CacheObject.getExternalBuffer cache (Buffer.uri buffer) with
        | ReplyPromise id => Ok (Some id)
        | ReplyPlain => Throw TypeError
        end
    | _, _ => Ok None
    end;
  let extras := clone (FeatureProperty.extras property) in
  Ok ({| _componentType := componentType;
         _componentCount := BinaryAccessor.componentsPerAttribute binaryAccessor;
         _count := count;
         _classType := BinaryAccessor.classType binaryAccessor;
         _typedArray := typedArray;
         _signed := isSignedComponentType componentType;
         _normalized := normalized;
         _lowestValue := getLowestValue componentType;
         _maximumValue := getMaximumValue componentType;
         _initializedWithZeros :=
           negb (bool_decide (is_Some (Accessor.bufferViewId accessor)));
         _name := name;
         _semantic := FeatureProperty.semantic property;
         _type := GltfFeatureTablePropertyType.getTypeFromAccessorType type;
         _extras := extras |},
      pending).

End Construction.

End GltfFeatureTableAccessorProperty.

(** ** The array property *)

(** The sequences of values are JavaScript arrays: objects with an identity,
    which the cache and any number of properties may hold at once.  They live
    in a store, indexed by location. *)
Abbreviation Store := (gmap nat (list Value)).

(** [array[index] = value] on a JavaScript array: the array grows to reach an
    index past its end, the slots in between reading [undefined]. *)
Definition arraySet (array : list Value) (index : nat) (value : Value)
    : list Value :=
  if decide (index < length array)%nat
  then <[index := value]> array
  else array ++ replicate (index - length array) VUndefined ++ [value].

(** [array[index]] *)
Definition arrayGet (array : list Value) (index : nat) : Value :=
  default VUndefined (array !! index).

(** [clone(array, true)] of a sequence: a new array, at a location the store
    does not use yet, with copies of the elements. *)
Definition cloneArray (σ : Store) (l : nat) : nat * Store :=
  let l' := fresh (dom σ) in
  (l', <[l' := clone <$> default [] (σ !! l)]> σ).

Module GltfFeatureTableArrayProperty.

Record t := {
  _values : option nat;
  _fromCache : bool;
  _name : string;
  _semantic : option string;
  _type : GltfFeatureTablePropertyType.t;
  _extras : Value
}.

(** [this._values = values; this._fromCache = fromCache] *)
Definition assign (this : t) (values : option nat) (fromCache : bool) : t :=
  {| _values := values;
     _fromCache := fromCache;
     _name := _name this;
     _semantic := _semantic this;
     _type := _type this;
     _extras := _extras this |}.

(** The continuation the constructor attaches to the reply of
    [cache.getExternalValues]; [values] is the very sequence the cache
    holds, or [undefined]. *)
Definition bindExternalValues (that : t) (values : option nat) : t :=
  assign that values true.

(** The constructor.  Besides the property it returns the promise its
    continuation waits on, when the array is external. *)
Definition new (options : Options.t) (σ : Store)
    : Result (t * option nat * Store) :=
  let name := Options.name options in
  let property := Options.property options in
  let cache := Options.cache options in
  array ←
    match FeatureProperty.array property with
    | Some array => Ok array
    | None => Throw TypeError
    end;
  let external := FeatureProperty.external array in
  pending ←
    match external with
    | Some external =>
        match CacheObject.getExternalValues cache external with
        | ReplyPromise id => Ok (Some id)
        | ReplyPlain => Throw TypeError
        end
    | None => Ok None
    end;
  let '(values, σ) :=
    match FeatureProperty.values array with
    | Some values =>
        let l := fresh (dom σ) in (Some l, <[l := clone <$> values]> σ)
    | None => (None, σ)
    end in
  let extras := clone (FeatureProperty.extras property) in
  Ok ({| _values := values;
         _fromCache := false;
         _name := name;
         _semantic := FeatureProperty.semantic property;
         _type := GltfFeatureTablePropertyType.getTypeFromArrayType
                    (FeatureProperty.type array);
         _extras := extras |},
      pending, σ).

Definition getValue (this : t) (featureId : nat) (σ : Store) : Value :=
  match _values this with
  | None => VUndefined
  | Some values => clone (arrayGet (default [] (σ !! values)) featureId)
  end.

Definition setValue (this : t) (featureId : nat) (value : Value) (σ : Store)
    : t * Store :=
  match _values this with
  | None => (this, σ)
  | Some values =>
      let '(values, this, σ) :=
        if _fromCache this then
          let '(copy, σ) := cloneArray σ values in
          (copy, assign this (Some copy) false, σ)
        else (values, this, σ) in
      (this,
       <[values := arraySet (default [] (σ !! values)) featureId (clone value)]> σ)
  end.

End GltfFeatureTableArrayProperty.

(** ** The cache of external resources *)

(** [defined(value)]: neither [undefined] (absent) nor [null]. *)
Definition definedJson (entry : option JSON) : bool :=
  match entry with
  | None | Some JNull => false
  | Some _ => true
  end.

Module GltfFeatureMetadataCache.

Inductive FetchKind := FetchJson | FetchArrayBuffer.

(** The handlers one call attaches to the promise of a fetch: those of
    [getExternalValues] (closed over [key]) or those of [getExternalBuffer]. *)
Inductive Waiter :=
  | ValuesWaiter (key : string)
  | BufferWaiter.

(** A pending promise: the fetch operation that created it and the handlers
    attached so far, in the order of their registration. *)
Record Promise := { fetch : FetchKind; waiters : list Waiter }.

(** The value a fetch is fulfilled with, as its handlers see it: a handler of
    [getExternalValues] reads it as a document, a handler of
    [getExternalBuffer] wraps it in a [Uint8Array]. *)
Record Payload := { asDocument : JSON; asBytes : list Z }.

Inductive Outcome :=
  | Fulfilled (payload : Payload)
  | Rejected.

(** What the promise returned by a call resolves to. *)
Inductive Delivered :=
  | DeliveredValue (value : Value)
  | DeliveredBuffer (buffer : option (list Z)).

(** What a call returns: a plain value taken from the cache, or a promise,
    named by the resource it waits on and its rank among the waiters. *)
Inductive Reply (A : Type) :=
  | Plain (a : A)
  | Promised (externalUri : string) (rank : nat).
Arguments Plain {A} a.
Arguments Promised {A} externalUri rank.

(** [fetched] is not a member of the object: it records, most recent first,
    the fetch operations issued so far.  The three caches are the entries
    the objects hold under the locations asked for; what the objects
    inherit under the names of the members of [Object.prototype] is not
    represented, these names being no locations of resources. *)
Record t := {
  _resource : string;
  _jsonCache : gmap string JSON;
  _bufferCache : gmap string (list Z);
  _promiseCache : gmap string Promise;
  fetched : list (string * FetchKind)
}.

(** Modelled from the spec: [Resource] is not among the verified sources.
    [resource.getDerivedResource({url: uri}).url] resolves [uri] relative to
    the configured base location. *)
Definition getDerivedResource (resource : string) (uri : string) : string :=
  resource +:+ uri.

Definition new (basePath : string) : t :=
  {| _resource := basePath;
     _jsonCache := ∅;
     _bufferCache := ∅;
     _promiseCache := ∅;
     fetched := [] |}.

(** [promiseCache[externalUri] = externalResource.fetch...()], when no promise
    is registered for the resource, then the attachment of the handlers. *)
Definition attach (this : t) (externalUri : string) (kind : FetchKind)
    (waiter : Waiter) : nat * t :=
  let '(promise, fetched) :=
    match _promiseCache this !! externalUri with
    | Some promise => (promise, fetched this)
    | None => ({| fetch := kind; waiters := [] |},
               (externalUri, kind) :: fetched this)
    end in
  (length (waiters promise),
   {| _resource := _resource this;
      _jsonCache := _jsonCache this;
      _bufferCache := _bufferCache this;
      _promiseCache :=
        <[externalUri := {| fetch := fetch promise;
                            waiters := waiters promise ++ [waiter] |}]>
          (_promiseCache this);
      fetched := fetched |}).

(** [jsonCache[externalUri][key]] *)
Definition cachedMember (this : t) (externalUri key : string) : Value :=
  match _jsonCache this !! externalUri with
  | Some json =>
      match getMember json key with
      | Ok value => value
      | Throw _ => VUndefined
      end
  | None => VUndefined
  end.

Definition getExternalValues (this : t) (options : FeatureProperty.External)
    : Reply Value * t :=
  let uri := FeatureProperty.uri options in
  let key := FeatureProperty.key options in
  let externalUri := getDerivedResource (_resource this) uri in
  if definedJson (_jsonCache this !! externalUri) then
    (Plain (cachedMember this externalUri key), this)
  else
    let '(rank, this) := attach this externalUri FetchJson (ValuesWaiter key) in
    (Promised externalUri rank, this).

Definition getExternalBuffer (this : t) (uri : string)
    : Reply (list Z) * t :=
  let externalUri := getDerivedResource (_resource this) uri in
  match _bufferCache this !! externalUri with
  | Some buffer => (Plain buffer, this)
  | None =>
      let '(rank, this) := attach this externalUri FetchArrayBuffer BufferWaiter in
      (Promised externalUri rank, this)
  end.

(** [if (defined(promiseCache[externalUri])) { jsonCache[externalUri] = json;
    delete promiseCache[externalUri]; }] *)
Definition storeJson (this : t) (externalUri : string) (json : JSON) : t :=
  match _promiseCache this !! externalUri with
  | Some _ =>
      {| _resource := _resource this;
         _jsonCache := <[externalUri := json]> (_jsonCache this);
         _bufferCache := _bufferCache this;
         _promiseCache := delete externalUri (_promiseCache this);
         fetched := fetched this |}
  | None => this
  end.

(** The same for [bufferCache]. *)
Definition storeBuffer (this : t) (externalUri : string) (buffer : list Z) : t :=
  match _promiseCache this !! externalUri with
  | Some _ =>
      {| _resource := _resource this;
         _jsonCache := _jsonCache this;
         _bufferCache := <[externalUri := buffer]> (_bufferCache this);
         _promiseCache := delete externalUri (_promiseCache this);
         fetched := fetched this |}
  | None => this
  end.

(** The handlers of one waiter run on the outcome of the fetch: the [then]
    handler on fulfilment, the [otherwise] handler on rejection or when the
    [then] handler raised. *)
Definition runWaiter (externalUri : string) (outcome : Outcome)
    (this : t) (waiter : Waiter) : Delivered * t :=
  match waiter, outcome with
  | ValuesWaiter key, Fulfilled payload =>
      let json := asDocument payload in
      let this := storeJson this externalUri json in
      match getMember json key with
      | Ok value => (DeliveredValue value, this)
      | Throw _ =>
          (DeliveredValue VUndefined, storeJson this externalUri (JObj []))
      end
  | ValuesWaiter key, Rejected =>
      (DeliveredValue VUndefined, storeJson this externalUri (JObj []))
  | BufferWaiter, Fulfilled payload =>
      let this := storeBuffer this externalUri (asBytes payload) in
      (DeliveredBuffer (_bufferCache this !! externalUri), this)
  | BufferWaiter, Rejected =>
      let this := storeBuffer this externalUri [] in
      (DeliveredBuffer (_bufferCache this !! externalUri), this)
  end.

Fixpoint runWaiters (externalUri : string) (outcome : Outcome) (this : t)
    (waiters : list Waiter) : list Delivered * t :=
  match waiters with
  | [] => ([], this)
  | waiter :: rest =>
      let '(d, this) := runWaiter externalUri outcome this waiter in
      let '(ds, this) := runWaiters externalUri outcome this rest in
      (d :: ds, this)
  end.

(** The fetch of [externalUri] settles: the handlers attached to its promise
    run in the order of their registration.  Nothing happens when no fetch of
    the resource is in flight. *)
Definition settle (this : t) (externalUri : string) (outcome : Outcome)
    : list Delivered * t :=
  match _promiseCache this !! externalUri with
  | Some promise => runWaiters externalUri outcome this (waiters promise)
  | None => ([], this)
  end.

(** *** The cache over time

    What reaches the cache: the calls of its two methods and, from the
    transport, the settlement of a fetch. *)
Inductive Event :=
  | RequestValues (options : FeatureProperty.External)
  | RequestBuffer (uri : string)
  | Settle (externalUri : string) (outcome : Outcome).

Inductive Response :=
  | ValuesReply (reply : Reply Value)
  | BufferReply (reply : Reply (list Z))
  | Settled (delivered : list Delivered).

Definition step (this : t) (e : Event) : Response * t :=
  match e with
  | RequestValues options =>
      let '(reply, this) := getExternalValues this options in
      (ValuesReply reply, this)
  | RequestBuffer uri =>
      let '(reply, this) := getExternalBuffer this uri in
      (BufferReply reply, this)
  | Settle externalUri outcome =>
      let '(delivered, this) := settle this externalUri outcome in
      (Settled delivered, this)
  end.

Fixpoint run (this : t) (trace : list Event) : list Response * t :=
  match trace with
  | [] => ([], this)
  | e :: trace =>
      let '(r, this) := step this e in
      let '(rs, this) := run this trace in
      (r :: rs, this)
  end.

(** The three things the cache can hold for a resource. *)
Definition inFlight (this : t) (externalUri : string) : bool :=
  bool_decide (is_Some (_promiseCache this !! externalUri)).

Definition jsonResolved (this : t) (externalUri : string) : bool :=
  definedJson (_jsonCache this !! externalUri).













(** *** Invariants of the cache *)

Definition isValuesWaiter (w : Waiter) : bool :=
  match w with ValuesWaiter _ => true | BufferWaiter => false end.

(** The state a call or a settlement leaves the cache in. *)
Definition after (c : t) (e : Event) : t :=
  match e with
  | RequestValues options =>
      let u := getDerivedResource (_resource c) (FeatureProperty.uri options) in
      if definedJson (_jsonCache c !! u) then c
      else (attach c u FetchJson (ValuesWaiter (FeatureProperty.key options))).2
  | RequestBuffer uri =>
      let u := getDerivedResource (_resource c) uri in
      match _bufferCache c !! u with
      | Some _ => c
      | None => (attach c u FetchArrayBuffer BufferWaiter).2
      end
  | Settle u outcome =>
      match _promiseCache c !! u with
      | Some promise => (runWaiters u outcome c (waiters promise)).2
      | None => c
      end
  end.





(** [json[key]] as a handler hands it on: [undefined] when the read raised. *)
Definition memberOf (json : JSON) (key : string) : Value :=
  match getMember json key with
  | Ok value => value
  | Throw _ => VUndefined
  end.

(** What a waiter that runs after the first is handed on fulfilment. *)
Definition laterDelivery (this : t) (externalUri : string) (payload : Payload)
    (waiter : Waiter) : Delivered :=
  match waiter with
  | ValuesWaiter key => DeliveredValue (memberOf (asDocument payload) key)
  | BufferWaiter => DeliveredBuffer (_bufferCache this !! externalUri)
  end.

(** What holds of the waiters of every promise: none of them would
    overwrite an entry that is resolved. *)
Definition waitersInvariant (c : t) : Prop :=
  forall u P, _promiseCache c !! u = Some P ->
    (definedJson (_jsonCache c !! u) = true ->
     forallb (fun w => negb (isValuesWaiter w)) (waiters P) = true) /\
    (is_Some (_bufferCache c !! u) ->
     forallb isValuesWaiter (waiters P) = true).

End GltfFeatureMetadataCache.

(** ** The feature table *)

Module GltfFeature.
(** A feature is a handle on one row of its table; the table it belongs to
    is the one whose [_features] holds it. *)
Record t := { _featureId : Z }.
End GltfFeature.

(** The third variant, [GltfFeatureTableDescriptorProperty], is not among
    the verified sources: the table is defined over any implementation of the
    property interface for it. *)
Class DescriptorVariant := {
  DescriptorProperty : Type;
  newDescriptor : Options.t -> Result DescriptorProperty;
  descriptorType : DescriptorProperty -> GltfFeatureTablePropertyType.t;
  descriptorGetValue : DescriptorProperty -> nat -> option Value -> Result Value;
  descriptorSetValue : DescriptorProperty -> nat -> Value -> Result DescriptorProperty
}.

(** The feature table of the document.  [featureProperties] lists the
    members of the object in the order in which [for ... in] visits them. *)
Module FeatureTableJson.
Record t := {
  featureProperties : list (string * FeatureProperty.t);
  featureCount : option Z;
  name : option string;
  extras : Value
}.
End FeatureTableJson.

Module GltfFeatureTable.

Section Table.
Context `{DescriptorVariant}.
Variable createArrayBufferView :
  ComponentDatatype -> BufferSource.t -> Z -> nat -> Result (list Num).

Inductive Property :=
  | DescriptorProp (p : DescriptorProperty)
  | BinaryProp (p : GltfFeatureTableAccessorProperty.t)
  | ArrayProp (p : GltfFeatureTableArrayProperty.t).

Record t := {
  _features : option (list GltfFeature.t);
  _properties : gmap string Property;
  _featureCount : option Z;
  _name : option string;
  _extras : Value
}.

(** [defined(value)] for an optional member or argument: neither
    [undefined] nor [null]. *)
Definition definedValue (value : option Value) : bool :=
  match value with
  | None | Some VUndefined | Some (VJson JNull) => false
  | Some _ => true
  end.

(** The options every constructor of a property is called with. *)
Definition optionsFor (gltf : Gltf.t) (cache : CacheObject.t) (name : string)
    (property : FeatureProperty.t) : Options.t :=
  {| Options.gltf := gltf; Options.name := name;
     Options.property := property; Options.cache := cache |}.

(** The body of the loop over [featureProperties]: the variant is chosen by
    the members the entry has.  The promise a continuation of the new
    property waits on is returned with it. *)
Definition newProperty (gltf : Gltf.t) (cache : CacheObject.t) (name : string)
    (property : FeatureProperty.t) (σ : Store)
    : Result (Property * option nat * Store) :=
  let options := optionsFor gltf cache name property in
  if definedValue (FeatureProperty.descriptor property) then
    p ← newDescriptor options; Ok (DescriptorProp p, None, σ)
  else if bool_decide (is_Some (FeatureProperty.accessor property)) then
    '(p, pending) ← GltfFeatureTableAccessorProperty.new createArrayBufferView options;
    Ok (BinaryProp p, pending, σ)
  else
    '(p, pending, σ) ← GltfFeatureTableArrayProperty.new options σ;
    Ok (ArrayProp p, pending, σ).

(** [featureProperties.hasOwnProperty(name)]: the method called is the member
    of that name.  Where an entry is named [hasOwnProperty], the member is
    that entry, which is no function, and the call raises; otherwise it is
    the method every object inherits, which finds [name] among the members
    of the object. *)
Definition hasOwnProperty
    (featureProperties : list (string * FeatureProperty.t)) (name : string)
    : Result bool :=
  if bool_decide ("hasOwnProperty" ∈ featureProperties.*1) then Throw TypeError
  else Ok (bool_decide (name ∈ featureProperties.*1)).

(** The loop over the members of [featureProperties], of which [remaining]
    are still to visit. *)
Fixpoint newProperties (gltf : Gltf.t) (cache : CacheObject.t)
    (featureProperties remaining : list (string * FeatureProperty.t))
    (properties : gmap string Property) (σ : Store)
    : Result (gmap string Property * Store) :=
  match remaining with
  | [] => Ok (properties, σ)
  | (name, property) :: rest =>
      own ← hasOwnProperty featureProperties name;
      if own : bool then
        '(p, _, σ) ← newProperty gltf cache name property σ;
        newProperties gltf cache featureProperties rest (<[name := p]> properties) σ
      else newProperties gltf cache featureProperties rest properties σ
  end.

Definition new (gltf : Gltf.t) (featureTable : FeatureTableJson.t)
    (cache : CacheObject.t) (σ : Store) : Result (t * Store) :=
  '(properties, σ) ←
    newProperties gltf cache (FeatureTableJson.featureProperties featureTable)
      (FeatureTableJson.featureProperties featureTable) ∅ σ;
  Ok ({| _features := None;
         _properties := properties;
         _featureCount := FeatureTableJson.featureCount featureTable;
         _name := FeatureTableJson.name featureTable;
         _extras := clone (FeatureTableJson.extras featureTable) |}, σ).

Definition checkFeatureId (featureId : Z) (featureCount : option Z)
    : Result unit :=
  match featureCount with
  | None =>
      Throw (DeveloperError
        "featureId must be between zero and featureCount - 1 (NaN).")
  | Some featureCount =>
      if (featureId <? 0) || (featureId >? featureCount) then
        let maximumFeatureId := featureCount - 1 in
        Throw (DeveloperError
          ("featureId must be between zero and featureCount - 1 ("
           +:+ pretty maximumFeatureId +:+ ")."))
      else Ok ()
  end.

(** [createFeatures]: the features are allocated once, one per id below
    [featureCount].  [new Array(featureCount)] raises for a count that is no
    length of an array: a negative one, or one from [2^32] on. *)
Definition createFeatures (featureTable : t) : Result t :=
  match _features featureTable with
  | Some _ => Ok featureTable
  | None =>
      features ←
        match _featureCount featureTable with
        | Some featureCount =>
            if (featureCount <? 0) || (2 ^ 32 <=? featureCount)
            then Throw RangeError
            else Ok ((fun i => GltfFeature.Build_t (Z.of_nat i))
                       <$> seq 0 (Z.to_nat featureCount))
        | None => Ok []
        end;
      Ok {| _features := Some features;
            _properties := _properties featureTable;
            _featureCount := _featureCount featureTable;
            _name := _name featureTable;
            _extras := _extras featureTable |}
  end.

(** [getFeature]: the feature, or [undefined] when [_features] has no slot
    for the id; the table comes back with its features allocated. *)
Definition getFeature (this : t) (featureId : Z)
    : Result (option GltfFeature.t * t) :=
  _ ← checkFeatureId featureId (_featureCount this);
  this ← createFeatures this;
  Ok (if featureId <? 0 then None
      else default [] (_features this) !! Z.to_nat featureId,
      this).

Definition propertyType (property : Property) : GltfFeatureTablePropertyType.t :=
  match property with
  | DescriptorProp p => descriptorType p
  | BinaryProp p => GltfFeatureTableAccessorProperty._type p
  | ArrayProp p => GltfFeatureTableArrayProperty._type p
  end.

(** [value instanceof classType] *)
Definition instanceOf (value : Value) (classType : ClassType) : bool :=
  match value with
  | VComposite c _ => bool_decide (c = classType)
  | _ => false
  end.

(** The chain of class checks the getter and the setter share; [what] is
    [result] or [value]. *)
Definition checkClass (what : string) (type : GltfFeatureTablePropertyType.t)
    (value : Value) : Result bool :=
  let fails t c := bool_decide (type = t) && negb (instanceOf value c) in
  let raise c := Throw (DeveloperError (what +:+ " must be a " +:+ c)) in
  if fails GltfFeatureTablePropertyType.VEC2 Cartesian2 then raise "Cartesian2"
  else if fails GltfFeatureTablePropertyType.VEC3 Cartesian3 then raise "Cartesian3"
  else if fails GltfFeatureTablePropertyType.VEC4 Cartesian4 then raise "Cartesian4"
  else if fails GltfFeatureTablePropertyType.MAT2 Matrix2 then raise "Matrix2"
  else if fails GltfFeatureTablePropertyType.MAT3 Matrix3 then raise "Matrix3"
  else if fails GltfFeatureTablePropertyType.MAT4 Matrix4 then raise "Matrix4"
  else Ok true.

(** [this._properties[name]] for a name the table has no property of: the
    member the object inherits from [Object.prototype], if any.  Such a
    member is defined and has neither a [type] nor the methods of a
    property: calling [getValue] or [setValue] on it raises.  (A property
    named [__proto__] is kept like the others: [_properties[name]] reads it
    under that name.  What the object then inherits through it is not
    represented.) *)
Definition inheritedProperty {A : Type} (name : string) (absent : Result A)
    : Result A :=
  if bool_decide (name ∈ objectPrototype) then Throw TypeError else absent.

Definition unknownProperty {A : Type} (name : string) : Result A :=
  let quote := String (Ascii.ascii_of_nat 34) EmptyString in
  Throw (DeveloperError
    ("The feature table does not have a property with the name "
     +:+ quote +:+ name +:+ quote +:+ ".")).

Definition getPropertyValue (this : t) (featureId : Z) (name : string)
    (result : option Value) (σ : Store) : Result Value :=
  _ ← checkFeatureId featureId (_featureCount this);
  match _properties this !! name with
  | None => inheritedProperty name (unknownProperty name)
  | Some property =>
      _ ← (if definedValue result
           then checkClass "result" (propertyType property)
                  (default VUndefined result)
           else Ok true);
      match property with
      | DescriptorProp p => descriptorGetValue p (Z.to_nat featureId) result
      | BinaryProp p =>
          GltfFeatureTableAccessorProperty.getValue p (Z.to_nat featureId) result
      | ArrayProp p =>
          Ok (GltfFeatureTableArrayProperty.getValue p (Z.to_nat featureId) σ)
      end
  end.

Definition checkValue (type : GltfFeatureTablePropertyType.t) (value : Value)
    : Result bool :=
  _ ← checkClass "value" type value;
  let fails t n := bool_decide (type = t) && negb (String.eqb (typeOf value) n) in
  let raise n := Throw (DeveloperError ("value must be a " +:+ n)) in
  if fails GltfFeatureTablePropertyType.STRING "string" then raise "string"
  else if fails GltfFeatureTablePropertyType.NUMBER "number" then raise "number"
  else if fails GltfFeatureTablePropertyType.BOOLEAN "boolean" then raise "boolean"
  else Ok true.

Definition withProperty (this : t) (name : string) (property : Property) : t :=
  {| _features := _features this;
     _properties := <[name := property]> (_properties this);
     _featureCount := _featureCount this;
     _name := _name this;
     _extras := _extras this |}.

(** [setPropertyValue]; the property written to is the one the table holds,
    so the table comes back with it. *)
Definition setPropertyValue (this : t) (featureId : Z) (name : string)
    (value : Value) (σ : Store) : Result (t * Store) :=
  _ ← checkFeatureId featureId (_featureCount this);
  match _properties this !! name with
  | None => inheritedProperty name (unknownProperty name)
  | Some property =>
      _ ← checkValue (propertyType property) value;
      match property with
      | DescriptorProp p =>
          p ← descriptorSetValue p (Z.to_nat featureId) value;
          Ok (withProperty this name (DescriptorProp p), σ)
      | BinaryProp p =>
          p ← GltfFeatureTableAccessorProperty.setValue p (Z.to_nat featureId) value;
          Ok (withProperty this name (BinaryProp p), σ)
      | ArrayProp p =>
          let '(p, σ) :=
            GltfFeatureTableArrayProperty.setValue p (Z.to_nat featureId) value σ in
          Ok (withProperty this name (ArrayProp p), σ)
      end
  end.

(** [GltfFeature.prototype.getProperty] *)
Definition getProperty (featureTable : t) (feature : GltfFeature.t)
    (name : string) (result : option Value) (σ : Store) : Result Value :=
  getPropertyValue featureTable (GltfFeature._featureId feature) name result σ.

Inductive Variant := DescriptorVariantTag | BinaryVariantTag | ArrayVariantTag.

Definition variantOf (property : Property) : Variant :=
  match property with
  | DescriptorProp _ => DescriptorVariantTag
  | BinaryProp _ => BinaryVariantTag
  | ArrayProp _ => ArrayVariantTag
  end.


(** The class the getter and the setter ask of a result or a value, by the
    type of the property, and the [typeof] the setter asks of a value. *)
Definition expectedClass (type : GltfFeatureTablePropertyType.t)
    : option ClassType :=
  match type with
  | GltfFeatureTablePropertyType.VEC2 => Some Cartesian2
  | GltfFeatureTablePropertyType.VEC3 => Some Cartesian3
  | GltfFeatureTablePropertyType.VEC4 => Some Cartesian4
  | GltfFeatureTablePropertyType.MAT2 => Some Matrix2
  | GltfFeatureTablePropertyType.MAT3 => Some Matrix3
  | GltfFeatureTablePropertyType.MAT4 => Some Matrix4
  | _ => None
  end.

Definition expectedTypeOf (type : GltfFeatureTablePropertyType.t)
    : option string :=
  match type with
  | GltfFeatureTablePropertyType.STRING => Some "string"
  | GltfFeatureTablePropertyType.NUMBER => Some "number"
  | GltfFeatureTablePropertyType.BOOLEAN => Some "boolean"
  | _ => None
  end.

End Table.
End GltfFeatureTable.

(** ** The feature metadata *)

Module FeatureMetadataJson.
Record t := { featureTables : option (list FeatureTableJson.t) }.
End FeatureMetadataJson.

Module GltfFeatureMetadata.
Section Metadata.
Context `{DescriptorVariant}.
Variable createArrayBufferView :
  ComponentDatatype -> BufferSource.t -> Z -> nat -> Result (list Num).

Record t := { _featureTables : option (list GltfFeatureTable.t) }.

(** [featureTables.forEach(function (featureTable) { return new
    GltfFeatureTable(...); })]: every table is constructed, in order, and
    what the callback returns is dropped. *)
Fixpoint forEachTable (gltf : Gltf.t) (cache : CacheObject.t)
    (featureTables : list FeatureTableJson.t) (σ : Store) : Result Store :=
  match featureTables with
  | [] => Ok σ
  | featureTable :: rest =>
      '(_, σ) ← GltfFeatureTable.new createArrayBufferView gltf featureTable cache σ;
      forEachTable gltf cache rest σ
  end.

(** The constructor: [forEach] returns [undefined], which is what
    [_featureTables] is assigned. *)
Definition new (gltf : Gltf.t) (featureMetadata : FeatureMetadataJson.t)
    (cache : CacheObject.t) (σ : Store) : Result (t * Store) :=
  match FeatureMetadataJson.featureTables featureMetadata with
  | None => Throw TypeError
  | Some featureTables =>
      σ ← forEachTable gltf cache featureTables σ;
      Ok ({| _featureTables := None |}, σ)
  end.

End Metadata.
End GltfFeatureMetadata.

(** ** Sample documents

    A document with one normalized unsigned byte scalar accessor over a
    buffer view, used in several statements below. *)
Module Sample.

(** The typed array the library makes of a buffer source. *)
Definition uint8View (componentType : ComponentDatatype)
    (buffer : BufferSource.t) (byteOffset : Z) (length : nat)
    : Result (list Num) :=
  Library.createArrayBufferView componentType buffer byteOffset length.

Definition accessor (componentType : ComponentDatatype) (count : nat)
    (bufferView bufferViewId : option nat) : Accessor.t :=
  {| Accessor.bufferView := bufferView;
     Accessor.bufferViewId := bufferViewId;
     Accessor.byteOffset := 0;
     Accessor.componentType := componentType;
     Accessor.normalized := true;
     Accessor.count := count;
     Accessor.type := Accessor.SCALAR |}.

Definition loaded (bytes : list Z) : BufferSource.t :=
  {| BufferSource.bytes := bytes; BufferSource.byteOffset := 0 |}.

(** One accessor over the view 0 of the buffer 0; the buffer is resident
    ([source] given) or external ([uri] given). *)
Definition document (accessor : Accessor.t) (uri : option string)
    (source : option BufferSource.t) : Gltf.t :=
  {| Gltf.accessors := [accessor];
     Gltf.bufferViews := [ {| BufferView.buffer := 0; BufferView.byteOffset := 0 |} ];
     Gltf.buffers :=
       [ {| Buffer.uri := uri;
            Buffer.extras :=
              Some {| Buffer._pipeline := Some {| Buffer.source := source |} |} |} ] |}.

Definition binaryEntry : FeatureProperty.t :=
  {| FeatureProperty.descriptor := None;
     FeatureProperty.accessor := Some 0%nat;
     FeatureProperty.array := None;
     FeatureProperty.semantic := None;
     FeatureProperty.extras := VUndefined |}.

(** A cache that answers every request with a promise. *)
Definition promisingCache : CacheObject.t :=
  {| CacheObject.getExternalValues := fun _ => ReplyPromise 0;
     CacheObject.getExternalBuffer := fun _ => ReplyPromise 0 |}.

Definition options (gltf : Gltf.t) : Options.t :=
  {| Options.gltf := gltf;
     Options.name := "height";
     Options.property := binaryEntry;
     Options.cache := promisingCache |}.

(** The property built over the resident bytes 255, 0 by an accessor as glTF
    has it (no [bufferViewId] member). *)
Definition residentBytes : Result (GltfFeatureTableAccessorProperty.t * option nat) :=
  GltfFeatureTableAccessorProperty.new uint8View
    (options (document (accessor UNSIGNED_BYTE 2 (Some 0%nat) None) None
                (Some (loaded [255; 0])))).

(** The same, the accessor carrying a [bufferViewId] member as well. *)
Definition residentBytesWithId : Result (GltfFeatureTableAccessorProperty.t * option nat) :=
  GltfFeatureTableAccessorProperty.new uint8View
    (options (document (accessor UNSIGNED_BYTE 2 (Some 0%nat) (Some 0%nat)) None
                (Some (loaded [255; 0])))).

(** The property over an external buffer that has not arrived. *)
Definition externalDocument : Gltf.t :=
  document (accessor UNSIGNED_BYTE 1 (Some 0%nat) None) (Some "external.bin") None.

Definition externalBytes : Result (GltfFeatureTableAccessorProperty.t * option nat) :=
  GltfFeatureTableAccessorProperty.new uint8View (options externalDocument).

(** A property of the given component type with no buffer view at all. *)
Definition unbound (componentType : ComponentDatatype)
    : Result (GltfFeatureTableAccessorProperty.t * option nat) :=
  GltfFeatureTableAccessorProperty.new uint8View
    (options (document (accessor componentType 4 None None) None None)).



(** Modelled from the spec: the descriptor variant is outside the scope of
    the specification, which asks for a stub: a property without storage
    that reads [undefined] and ignores writes. *)
Definition stubDescriptor : DescriptorVariant :=
  {| DescriptorProperty := unit;
     newDescriptor := fun _ => Ok ();
     descriptorType := fun _ => GltfFeatureTablePropertyType.ANY;
     descriptorGetValue := fun _ _ _ => Ok VUndefined;
     descriptorSetValue := fun _ _ _ => Ok () |}.

Definition emptyDocument : Gltf.t :=
  {| Gltf.accessors := []; Gltf.bufferViews := []; Gltf.buffers := [] |}.

Definition arrayEntry (values : list Value) : FeatureProperty.t :=
  {| FeatureProperty.descriptor := None;
     FeatureProperty.accessor := None;
     FeatureProperty.array :=
       Some {| FeatureProperty.type := FeatureProperty.STRING_ARRAY;
               FeatureProperty.values := Some values;
               FeatureProperty.external := None |};
     FeatureProperty.semantic := None;
     FeatureProperty.extras := VUndefined |}.


(** An entry with a descriptor and an accessor. *)
Definition describedEntry : FeatureProperty.t :=
  {| FeatureProperty.descriptor := Some (VJson (JStr "class"));
     FeatureProperty.accessor := Some 0%nat;
     FeatureProperty.array := None;
     FeatureProperty.semantic := None;
     FeatureProperty.extras := VUndefined |}.

Definition tableJson (featureProperties : list (string * FeatureProperty.t))
    (featureCount : option Z) : FeatureTableJson.t :=
  {| FeatureTableJson.featureProperties := featureProperties;
     FeatureTableJson.featureCount := featureCount;
     FeatureTableJson.name := Some "buildings";
     FeatureTableJson.extras := VUndefined |}.

(** A table of three features with one array property. *)
Definition namesTable
    : Result (@GltfFeatureTable.t stubDescriptor * Store) :=
  GltfFeatureTable.new (H := stubDescriptor) uint8View emptyDocument
    (tableJson
       [("name", arrayEntry [VJson (JStr "a"); VJson (JStr "b"); VJson (JStr "c")])]
       (Some 3))
    promisingCache ∅.

(** The entries of a table with the three kinds of entries. *)
Definition mixedEntries : list (string * FeatureProperty.t) :=
  [("class", describedEntry); ("height", binaryEntry);
   ("name", arrayEntry [VJson (JStr "a")])].

Definition heightDocument : Gltf.t :=
  document (accessor UNSIGNED_BYTE 1 (Some 0%nat) None) None (Some (loaded [9])).

(** A scalar property that holds a typed array, its flag cleared. *)
Definition boundScalar (componentType : ComponentDatatype) (normalized : bool)
    (typedArray : list Num) : GltfFeatureTableAccessorProperty.t :=
  {| GltfFeatureTableAccessorProperty._componentType := componentType;
     GltfFeatureTableAccessorProperty._componentCount := 1;
     GltfFeatureTableAccessorProperty._count := length typedArray;
     GltfFeatureTableAccessorProperty._classType := None;
     GltfFeatureTableAccessorProperty._typedArray := Some typedArray;
     GltfFeatureTableAccessorProperty._signed := isSignedComponentType componentType;
     GltfFeatureTableAccessorProperty._normalized :=
       isNormalized normalized componentType;
     GltfFeatureTableAccessorProperty._lowestValue := getLowestValue componentType;
     GltfFeatureTableAccessorProperty._maximumValue := getMaximumValue componentType;
     GltfFeatureTableAccessorProperty._initializedWithZeros := false;
     GltfFeatureTableAccessorProperty._name := "height";
     GltfFeatureTableAccessorProperty._semantic := None;
     GltfFeatureTableAccessorProperty._type := GltfFeatureTablePropertyType.NUMBER;
     GltfFeatureTableAccessorProperty._extras := VUndefined |}.

(** A property of three-component vectors of floats over a typed array. *)
Definition boundVector (typedArray : list Num)
    : GltfFeatureTableAccessorProperty.t :=
  {| GltfFeatureTableAccessorProperty._componentType := FLOAT;
     GltfFeatureTableAccessorProperty._componentCount := 3;
     GltfFeatureTableAccessorProperty._count := 2;
     GltfFeatureTableAccessorProperty._classType := Some Cartesian3;
     GltfFeatureTableAccessorProperty._typedArray := Some typedArray;
     GltfFeatureTableAccessorProperty._signed := false;
     GltfFeatureTableAccessorProperty._normalized := false;
     GltfFeatureTableAccessorProperty._lowestValue := getLowestValue FLOAT;
     GltfFeatureTableAccessorProperty._maximumValue := getMaximumValue FLOAT;
     GltfFeatureTableAccessorProperty._initializedWithZeros := false;
     GltfFeatureTableAccessorProperty._name := "normal";
     GltfFeatureTableAccessorProperty._semantic := None;
     GltfFeatureTableAccessorProperty._type := GltfFeatureTablePropertyType.VEC3;
     GltfFeatureTableAccessorProperty._extras := VUndefined |}.

(** A document whose accessor names a buffer view it does not have. *)
Definition danglingDocument : Gltf.t :=
  {| Gltf.accessors := [accessor UNSIGNED_BYTE 1 (Some 5%nat) None];
     Gltf.bufferViews := [];
     Gltf.buffers := [] |}.

Definition residentDocument : Gltf.t :=
  document (accessor UNSIGNED_BYTE 2 (Some 0%nat) None) None (Some (loaded [255; 0])).

(** One signed byte is asked of a buffer source of three bytes. *)
Definition longerDocument : Gltf.t :=
  document (accessor BYTE 1 (Some 0%nat) None) None (Some (loaded [7; 8; 200])).

(** An array property over the sequence at location 0, and a store that
    holds it. *)
Definition names (fromCache : bool) : GltfFeatureTableArrayProperty.t :=
  {| GltfFeatureTableArrayProperty._values := Some 0%nat;
     GltfFeatureTableArrayProperty._fromCache := fromCache;
     GltfFeatureTableArrayProperty._name := "name";
     GltfFeatureTableArrayProperty._semantic := None;
     GltfFeatureTableArrayProperty._type := GltfFeatureTablePropertyType.STRING;
     GltfFeatureTableArrayProperty._extras := VUndefined |}.

Definition namesStore : Store :=
  {[ 0%nat := [VJson (JStr "a"); VJson (JStr "b"); VJson (JStr "c")] ]}.

(** A table of three features over that property. *)
Definition smallTable : @GltfFeatureTable.t stubDescriptor :=
  {| GltfFeatureTable._features := None;
     GltfFeatureTable._properties :=
       {[ "name" := GltfFeatureTable.ArrayProp (names false) ]};
     GltfFeatureTable._featureCount := Some 3;
     GltfFeatureTable._name := Some "buildings";
     GltfFeatureTable._extras := VUndefined |}.

Definition externalEntry : FeatureProperty.t :=
  {| FeatureProperty.descriptor := None;
     FeatureProperty.accessor := None;
     FeatureProperty.array :=
       Some {| FeatureProperty.type := FeatureProperty.STRING_ARRAY;
               FeatureProperty.values := None;
               FeatureProperty.external :=
                 Some {| FeatureProperty.uri := "names.json";
                         FeatureProperty.key := "name" |} |};
     FeatureProperty.semantic := None;
     FeatureProperty.extras := VUndefined |}.

Definition arrayOptions (property : FeatureProperty.t) : Options.t :=
  {| Options.gltf := emptyDocument;
     Options.name := "name";
     Options.property := property;
     Options.cache := promisingCache |}.

Definition bytesPayload (bytes : list Z) : GltfFeatureMetadataCache.Payload :=
  {| GltfFeatureMetadataCache.asDocument := JObj [];
     GltfFeatureMetadataCache.asBytes := bytes |}.

Definition documentPayload (json : JSON) : GltfFeatureMetadataCache.Payload :=
  {| GltfFeatureMetadataCache.asDocument := json;
     GltfFeatureMetadataCache.asBytes := [] |}.

(** The cache after one call of [getExternalValues], and after one call of
    [getExternalBuffer]. *)
Definition awaitingDocument : GltfFeatureMetadataCache.t :=
  (GltfFeatureMetadataCache.getExternalValues (GltfFeatureMetadataCache.new "")
     {| FeatureProperty.uri := "v.json"; FeatureProperty.key := "k" |}).2.

Definition awaitingBuffer : GltfFeatureMetadataCache.t :=
  (GltfFeatureMetadataCache.getExternalBuffer (GltfFeatureMetadataCache.new "")
     "b.bin").2.

(** A cache that answers every request with a plain value. *)
Definition plainCache : CacheObject.t :=
  {| CacheObject.getExternalValues := fun _ => ReplyPlain;
     CacheObject.getExternalBuffer := fun _ => ReplyPlain |}.

Definition floatDocument : Gltf.t :=
  document (accessor FLOAT 4 None None) None None.

End Sample.

(** * Properties *)

Import GltfFeatureTablePropertyType.

(** ** Normalisation arithmetic of the binary property *)

Section Normalisation.
Import GltfFeatureTableAccessorProperty.

(** The maximum of an unsigned component type is two to the power of its
    size in bytes, minus one. *)
Lemma getMaximumValue_unsigned (componentType : ComponentDatatype) :
  isUnsignedComponentType componentType = true ->
  getMaximumValue componentType = sub (pow2 (getSizeInBytes componentType)) (ofZ 1).
Proof. by destruct componentType. Qed.

Lemma getMaximumValue_signed (componentType : ComponentDatatype) :
  isSignedComponentType componentType = true ->
  getMaximumValue componentType
  = sub (pow2 (getSizeInBytes componentType - 1)) (ofZ 1).
Proof. by destruct componentType. Qed.

(** The constructor sets [_initializedWithZeros] from the [bufferViewId]
    member of the accessor, whatever its [bufferView]. *)
Lemma new_initializedWithZeros createArrayBufferView options p pending accessor :
  FeatureProperty.accessor (Options.property options)
    ≫= (fun i => Gltf.accessors (Options.gltf options) !! i) = Some accessor ->
  new createArrayBufferView options = Ok (p, pending) ->
  _initializedWithZeros p
  = negb (bool_decide (is_Some (Accessor.bufferViewId accessor))).
Proof.
  intros Hacc. unfold new. rewrite Hacc. cbn.
  destruct (getBuffer _ _) as [buffer|]; cbn; [|done].
  destruct (getBufferSource _ _) as [source|]; cbn; [|done].
  destruct (getTypedArrayForAccessor _ _ _ _ _) as [typedArray|]; cbn; [|done].
  destruct typedArray, buffer; cbn; try (intros [= <- _]; done).
  destruct (CacheObject.getExternalBuffer _ _); cbn; [|done].
  by intros [= <- _].
Qed.

(** The continuation that binds the external buffer leaves
    [_initializedWithZeros] as it was. *)
Lemma bindExternalBuffer_initializedWithZeros createArrayBufferView gltf accessor
    binaryAccessor that bufferSource p :
  bindExternalBuffer createArrayBufferView gltf accessor binaryAccessor that
    bufferSource = Ok p ->
  _initializedWithZeros p = _initializedWithZeros that.
Proof.
  unfold bindExternalBuffer.
  destruct (getTypedArrayForAccessor _ _ _ _ _); cbn; [|done].
  by intros [= <-].
Qed.

(** While [_initializedWithZeros] is set, a scalar property reads zero
    whatever its typed array holds. *)
Lemma getValue_initializedWithZeros_scalar (p : t) featureId result :
  _initializedWithZeros p = true ->
  _componentCount p = 1%nat ->
  getValue p featureId result = Ok (VNumber (ofZ 0)).
Proof. intros Hz Hc. unfold getValue. by rewrite Hz, Hc. Qed.

(** With the flag cleared and no typed array, a write changes nothing. *)
Lemma setValue_unbound (p : t) featureId value :
  _initializedWithZeros p = false ->
  _typedArray p = None ->
  setValue p featureId value = Ok p.
Proof. intros Hz Ht. unfold setValue. by rewrite Hz, Ht. Qed.

Lemma Qred_integer (z : Z) : Qred (inject_Z z) = inject_Z z.
Proof. apply Qred_identity. cbn. apply Z.gcd_1_r. Qed.

Lemma round_integer (z : Z) : round (ofZ z) = ofZ z.
Proof.
  unfold round, ofZ. f_equal. f_equal. unfold Qplus, Qfloor. cbn.
  rewrite Z.mul_1_r. replace (z * 2 + 1) with (1 + z * 2) by lia.
  rewrite Z.div_add by lia. reflexivity.
Qed.

Lemma inject_Z_nonzero (m : Z) : m <> 0 -> ~ (inject_Z m == 0)%Q.
Proof. intros Hm Heq. unfold Qeq in Heq. cbn in Heq. lia. Qed.

Lemma div_mul_integer (r m : Z) :
  m <> 0 -> mul (div (ofZ r) (ofZ m)) (ofZ m) = ofZ r.
Proof.
  intros Hm. unfold div, mul, ofZ, qzero. cbn.
  destruct (Z.eqb_spec m 0) as [|_]; [done|].
  f_equal. etransitivity; [apply Qred_complete|apply Qred_integer].
  rewrite Qred_correct, Qmult_comm.
  by apply Qmult_div_r, inject_Z_nonzero.
Qed.

(** Where the maximum is a positive integer [m], the values [r / m] with
    [-m <= r <= m] survive encoding and decoding unchanged. *)
Lemma roundtrip_exact_on_lattice (p : t) (m r : Z) :
  _normalized p = true ->
  _maximumValue p = ofZ m ->
  0 < m ->
  - m <= r <= m ->
  decodeValue p (encodeValue p (VNumber (div (ofZ r) (ofZ m))))
  = VNumber (div (ofZ r) (ofZ m)).
Proof.
  intros Hn Hmax Hm Hr. unfold decodeValue, encodeValue.
  rewrite Hn, Hmax. cbn [negb ToNumber jsonToNumber VNumber].
  rewrite div_mul_integer, round_integer by lia.
  destruct (_signed p); [|done].
  f_equal. f_equal.
  unfold div, ofZ, qzero. cbn [Qnum inject_Z].
  destruct (Z.eqb_spec m 0) as [|_]; [lia|].
  unfold neg, max. cbn [inject_Z].
  destruct (Qle_bool _ _) eqn:Hle; [|done].
  f_equal. apply Qle_bool_iff in Hle.
  apply Qred_complete. rewrite !Qred_correct in Hle.
  destruct m as [|pm|pm]; try lia.
  unfold Qle, Qeq, Qdiv, Qmult, Qinv in *. cbn in *. lia.
Qed.

(** C2: for the normalized unsigned byte scalar over the raw components 255
    and 0, the divisor [getMaximumValue] yields is 2^1 - 1 = 1 (for the byte
    width w it is 2^w - 1: 1, 3 and 15), so the property whose flag
    [_initializedWithZeros] is cleared reads 255 and 0; the property built
    from an accessor without a [bufferViewId] member reads 0 for the raw
    component 255. *)
Theorem normalized_unsigned_byte_getValue :
  getMaximumValue UNSIGNED_BYTE = ofZ 1 /\
  getMaximumValue UNSIGNED_SHORT = ofZ 3 /\
  getMaximumValue UNSIGNED_INT = ofZ 15 /\
  (p ← Sample.residentBytesWithId; getValue p.1 0 None) = Ok (VNumber (ofZ 255)) /\
  (p ← Sample.residentBytesWithId; getValue p.1 1 None) = Ok (VNumber (ofZ 0)) /\
  (p ← Sample.residentBytes; getValue p.1 0 None) = Ok (VNumber (ofZ 0)).
Proof. repeat split; vm_compute; reflexivity. Qed.

(** C9: the maximum of the signed byte is 2^0 - 1 = 0: encoding 1 gives the
    raw 0, which decodes to NaN.  The maximum of the signed short is
    2^1 - 1 = 1: the value 16384/32767 is encoded as 1 and decoded as 1, half
    a unit away, the smallest step of a two byte encoding being 1/32767. *)
Theorem signed_roundtrip_at_code_maximum :
  getMaximumValue BYTE = ofZ 0 /\
  (p ← Sample.unbound BYTE;
   Ok (decodeValue p.1 (encodeValue p.1 (VNumber (ofZ 1))))) = Ok (VNumber NaN) /\
  getMaximumValue SHORT = ofZ 1 /\
  (p ← Sample.unbound SHORT;
   Ok (decodeValue p.1 (encodeValue p.1 (VNumber (Fin (16384 # 32767))))))
  = Ok (VNumber (ofZ 1)) /\
  within (Fin (1 # 32767)) (Fin (16384 # 32767)) (ofZ 1) = false.
Proof. repeat split; vm_compute; reflexivity. Qed.

(** C3: the property over an external buffer is built pending; once the
    continuation has bound the view of the bytes that arrived (here the
    single byte 7), [getValue] still returns zero, because the flag
    [_initializedWithZeros] is set for an accessor without a [bufferViewId]
    member and nothing clears it. *)
Theorem external_buffer_bound_getValue :
  exists p pending p',
    Sample.externalBytes = Ok (p, Some pending) /\
    _typedArray p = None /\
    bindExternalBuffer Sample.uint8View Sample.externalDocument
      (Sample.accessor UNSIGNED_BYTE 1 (Some 0%nat) None)
      (getBinaryAccessor (Sample.accessor UNSIGNED_BYTE 1 (Some 0%nat) None))
      p (Sample.loaded [7]) = Ok p' /\
    _typedArray p' = Some [ofZ 7] /\
    getValue p' 0 None = Ok (VNumber (ofZ 0)).
Proof. do 3 eexists. repeat split; vm_compute; reflexivity. Qed.

(** C4: a write to the pending property allocates a zero filled typed array,
    stores the value in it and clears [_initializedWithZeros]: the property
    is not left as it was. *)
Theorem pending_setValue_allocates :
  exists p pending p',
    Sample.externalBytes = Ok (p, Some pending) /\
    _typedArray p = None /\
    setValue p 0 (VNumber (ofZ 5)) = Ok p' /\
    _typedArray p' = Some [ofZ 5] /\
    _initializedWithZeros p' = false /\
    p' <> p.
Proof.
  do 3 eexists. repeat split; try (vm_compute; reflexivity).
  intros Heq. apply (f_equal _typedArray) in Heq. vm_compute in Heq. done.
Qed.

End Normalisation.

(** ** The implicit zero state *)

Section ImplicitZero.
Import GltfFeatureTableAccessorProperty.

(** While [_initializedWithZeros] is set, a composite property reads the
    zero of its class. *)
Lemma getValue_initializedWithZeros_composite (p : t) c featureId result :
  _initializedWithZeros p = true ->
  _componentCount p <> 1%nat ->
  _classType p = Some c ->
  getValue p featureId result = Ok (ZERO c).
Proof.
  intros Hz Hc Hclass. unfold getValue. rewrite Hz, Hclass.
  by destruct (Nat.eqb_spec (_componentCount p) 1).
Qed.

Lemma ZERO_components c :
  ZERO c = VComposite c (replicate (packedLength c) (Some (ofZ 0))).
Proof. reflexivity. Qed.

(** C5: a property built from an accessor that has no buffer view (and, as
    glTF has it, no [bufferViewId] member) is built without a typed array and
    without a request to the cache; [getValue] returns 0 for a scalar and the
    zero of its class for a vector or a matrix, for every feature id.
    [getValue] returns a value only: the property, and so its storage, is
    what it was. *)
Theorem implicit_zero_getValue createArrayBufferView options accessor
    featureId result :
  FeatureProperty.accessor (Options.property options)
    ≫= (fun i => Gltf.accessors (Options.gltf options) !! i) = Some accessor ->
  Accessor.bufferView accessor = None ->
  Accessor.bufferViewId accessor = None ->
  exists p,
    new createArrayBufferView options = Ok (p, None) /\
    _typedArray p = None /\
    _initializedWithZeros p = true /\
    getValue p featureId result
    = Ok (match BinaryAccessor.classType (getBinaryAccessor accessor) with
          | None => VNumber (ofZ 0)
          | Some c => ZERO c
          end).
Proof.
  intros Hacc Hview Hid. unfold new. rewrite Hacc. cbn.
  unfold getBufferSource, getBuffer, getTypedArrayForAccessor.
  rewrite Hview, Hid. cbn. eexists. split; [reflexivity|].
  split; [reflexivity|]. split; [reflexivity|].
  unfold getValue, getBinaryAccessor. cbn.
  by destruct (Accessor.type accessor).
Qed.

Lemma implicit_zero_getValue_witness :
  exists p,
    new Sample.uint8View
      (Sample.options
         (Sample.document (Sample.accessor BYTE 4 None None) None None))
    = Ok (p, None) /\
    _typedArray p = None /\
    _initializedWithZeros p = true /\
    getValue p 3 None = Ok (VNumber (ofZ 0)).
Proof.
  apply (implicit_zero_getValue Sample.uint8View
           (Sample.options
              (Sample.document (Sample.accessor BYTE 4 None None) None None))
           (Sample.accessor BYTE 4 None None) 3%nat None); reflexivity.
Defined.

End ImplicitZero.

(** ** Copy on write of the array property *)

Section CopyOnWrite.
Import GltfFeatureTableArrayProperty.

Lemma fresh_location_unused (σ : Store) : σ !! fresh (dom σ) = None.
Proof. apply not_elem_of_dom, is_fresh. Qed.

(** A write to a sequence that is not shared is made in place. *)
Lemma setValue_private (σ : Store) (p : t) values featureId value :
  _fromCache p = false ->
  _values p = Some values ->
  setValue p featureId value σ
  = (p, <[values := arraySet (default [] (σ !! values)) featureId (clone value)]> σ).
Proof. intros Hc Hv. unfold setValue. by rewrite Hv, Hc. Qed.

(** C6: a write through a property that shares its sequence with the cache
    leaves the sequence of the cache as it was.  The property gets a copy of
    the whole sequence at a location not in use before, its flag is cleared,
    and the copy of the value goes into the slot of the copy; every other
    sequence of the store is unchanged, and any other property that holds the
    sequence of the cache reads from it what it read before. *)
Theorem shared_setValue_copies_first (σ : Store) (p : t) values sequence
    featureId value :
  _fromCache p = true ->
  _values p = Some values ->
  σ !! values = Some sequence ->
  exists copy p' σ',
    setValue p featureId value σ = (p', σ') /\
    σ !! copy = None /\
    copy <> values /\
    _values p' = Some copy /\
    _fromCache p' = false /\
    σ' !! values = Some sequence /\
    σ' !! copy = Some (arraySet (clone <$> sequence) featureId (clone value)) /\
    (forall l, l <> copy -> σ' !! l = σ !! l) /\
    (forall (q : t) i, _values q = Some values ->
       getValue q i σ' = getValue q i σ).
Proof.
  intros Hc Hv Hs.
  pose proof (fresh_location_unused σ) as Hfresh.
  assert (fresh (dom σ) <> values) as Hne by congruence.
  exists (fresh (dom σ)). do 2 eexists.
  split.
  { unfold setValue, cloneArray. rewrite Hv, Hc, Hs. cbn.
    rewrite lookup_insert_eq. cbn. reflexivity. }
  split; [done|]. split; [done|]. split; [done|]. split; [done|].
  assert (forall l, l <> fresh (dom σ) ->
            (<[fresh (dom σ) := arraySet (clone <$> sequence) featureId (clone value)]>
               (<[fresh (dom σ) := clone <$> sequence]> σ)) !! l = σ !! l) as Hframe.
  { intros l Hl. by rewrite !lookup_insert_ne. }
  split; [by rewrite Hframe|].
  split; [by rewrite lookup_insert_eq|].
  split; [done|].
  intros q i Hq. unfold getValue. rewrite Hq. by rewrite Hframe.
Qed.

Lemma shared_setValue_copies_first_witness :
  exists copy p' σ',
    setValue
      {| _values := Some 0%nat; _fromCache := true; _name := "names";
         _semantic := None; _type := STRING; _extras := VUndefined |}
      1 (VJson (JStr "c")) {[ 0%nat := [VJson (JStr "a"); VJson (JStr "b")] ]}
    = (p', σ') /\
    ({[ 0%nat := [VJson (JStr "a"); VJson (JStr "b")] ]} : Store) !! copy = None /\
    copy <> 0%nat /\
    _values p' = Some copy /\
    _fromCache p' = false /\
    σ' !! 0%nat = Some [VJson (JStr "a"); VJson (JStr "b")] /\
    σ' !! copy
    = Some (arraySet (clone <$> [VJson (JStr "a"); VJson (JStr "b")]) 1
              (clone (VJson (JStr "c")))) /\
    (forall l, l <> copy ->
       σ' !! l = ({[ 0%nat := [VJson (JStr "a"); VJson (JStr "b")] ]} : Store) !! l) /\
    (forall (q : t) i, _values q = Some 0%nat ->
       getValue q i σ'
       = getValue q i {[ 0%nat := [VJson (JStr "a"); VJson (JStr "b")] ]}).
Proof.
  apply (shared_setValue_copies_first
           {[ 0%nat := [VJson (JStr "a"); VJson (JStr "b")] ]}
           {| _values := Some 0%nat; _fromCache := true; _name := "names";
              _semantic := None; _type := STRING; _extras := VUndefined |}
           0%nat [VJson (JStr "a"); VJson (JStr "b")] 1%nat (VJson (JStr "c")));
    reflexivity.
Defined.

End CopyOnWrite.

(** ** The cache *)

Section Cache.
Import GltfFeatureMetadataCache.

Lemma attach_fields (c : t) u kind w :
  let c' := (attach c u kind w).2 in
  _resource c' = _resource c /\
  _jsonCache c' = _jsonCache c /\
  _bufferCache c' = _bufferCache c /\
  (forall u', u' <> u -> _promiseCache c' !! u' = _promiseCache c !! u') /\
  _promiseCache c' !! u
  = Some {| fetch := from_option fetch kind (_promiseCache c !! u);
            waiters := from_option waiters [] (_promiseCache c !! u) ++ [w] |} /\
  fetched c'
  = match _promiseCache c !! u with
    | Some _ => fetched c
    | None => (u, kind) :: fetched c
    end /\
  (attach c u kind w).1
  = length (from_option waiters [] (_promiseCache c !! u)).
Proof.
  unfold attach. destruct (_promiseCache c !! u) as [P|]; cbn;
    repeat split; try done; try (by rewrite lookup_insert_eq);
    intros u' Hne; by rewrite lookup_insert_ne.
Qed.

Lemma storeJson_fields (c : t) u json :
  let c' := storeJson c u json in
  _resource c' = _resource c /\
  _bufferCache c' = _bufferCache c /\
  fetched c' = fetched c /\
  _promiseCache c' !! u = None /\
  (forall u', u' <> u ->
     _promiseCache c' !! u' = _promiseCache c !! u' /\
     _jsonCache c' !! u' = _jsonCache c !! u') /\
  _jsonCache c' !! u
  = match _promiseCache c !! u with
    | Some _ => Some json
    | None => _jsonCache c !! u
    end.
Proof.
  unfold storeJson. destruct (_promiseCache c !! u) as [P|] eqn:HP; cbn;
    repeat split; try done.
  - by rewrite lookup_delete_eq.
  - by rewrite lookup_delete_ne.
  - by rewrite lookup_insert_ne.
  - by rewrite lookup_insert_eq.
Qed.

Lemma storeBuffer_fields (c : t) u buffer :
  let c' := storeBuffer c u buffer in
  _resource c' = _resource c /\
  _jsonCache c' = _jsonCache c /\
  fetched c' = fetched c /\
  _promiseCache c' !! u = None /\
  (forall u', u' <> u ->
     _promiseCache c' !! u' = _promiseCache c !! u' /\
     _bufferCache c' !! u' = _bufferCache c !! u') /\
  _bufferCache c' !! u
  = match _promiseCache c !! u with
    | Some _ => Some buffer
    | None => _bufferCache c !! u
    end.
Proof.
  unfold storeBuffer. destruct (_promiseCache c !! u) as [P|] eqn:HP; cbn;
    repeat split; try done.
  - by rewrite lookup_delete_eq.
  - by rewrite lookup_delete_ne.
  - by rewrite lookup_insert_ne.
  - by rewrite lookup_insert_eq.
Qed.

(** The handlers of a waiter touch the entries of their own resource only,
    and leave no promise registered for it. *)
Lemma runWaiter_fields u outcome (c : t) w :
  let c' := (runWaiter u outcome c w).2 in
  _resource c' = _resource c /\
  fetched c' = fetched c /\
  _promiseCache c' !! u = None /\
  (forall u', u' <> u ->
     _promiseCache c' !! u' = _promiseCache c !! u' /\
     _jsonCache c' !! u' = _jsonCache c !! u' /\
     _bufferCache c' !! u' = _bufferCache c !! u') /\
  (isValuesWaiter w = true -> _bufferCache c' = _bufferCache c) /\
  (isValuesWaiter w = false -> _jsonCache c' = _jsonCache c).
Proof.
  destruct w as [key|], outcome as [payload|]; cbn.
  - destruct (storeJson_fields c u (asDocument payload))
      as (Hr & Hb & Hf & Hp & Hframe & _).
    destruct (storeJson_fields (storeJson c u (asDocument payload)) u (JObj []))
      as (Hr' & Hb' & Hf' & Hp' & Hframe' & _).
    destruct (getMember (asDocument payload) key) eqn:Hm; cbn.
    + split; [done|]. split; [done|]. split; [done|].
      split; [|by split].
      intros u' Hne. destruct (Hframe u' Hne) as [-> ->]. by rewrite Hb.
    + split; [congruence|]. split; [congruence|]. split; [done|].
      split; [|split; [congruence|done]].
      intros u' Hne. destruct (Hframe u' Hne) as [<- <-].
      destruct (Hframe' u' Hne) as [-> ->]. by rewrite Hb', Hb.
  - destruct (storeJson_fields c u (JObj [])) as (Hr & Hb & Hf & Hp & Hframe & _).
    split; [done|]. split; [done|]. split; [done|].
    split; [|by split].
    intros u' Hne. destruct (Hframe u' Hne) as [-> ->]. by rewrite Hb.
  - destruct (storeBuffer_fields c u (asBytes payload))
      as (Hr & Hj & Hf & Hp & Hframe & _).
    split; [done|]. split; [done|]. split; [done|].
    split; [|by split].
    intros u' Hne. destruct (Hframe u' Hne) as [-> ->]. by rewrite Hj.
  - destruct (storeBuffer_fields c u []) as (Hr & Hj & Hf & Hp & Hframe & _).
    split; [done|]. split; [done|]. split; [done|].
    split; [|by split].
    intros u' Hne. destruct (Hframe u' Hne) as [-> ->]. by rewrite Hj.
Qed.

Lemma runWaiters_cons u outcome (c : t) w ws :
  runWaiters u outcome c (w :: ws)
  = ((runWaiter u outcome c w).1
       :: (runWaiters u outcome (runWaiter u outcome c w).2 ws).1,
     (runWaiters u outcome (runWaiter u outcome c w).2 ws).2).
Proof.
  cbn. destruct (runWaiter u outcome c w) as [d c1]. cbn.
  by destruct (runWaiters u outcome c1 ws).
Qed.

Lemma runWaiters_fields u outcome ws : forall (c : t),
  let c' := (runWaiters u outcome c ws).2 in
  _resource c' = _resource c /\
  fetched c' = fetched c /\
  (ws <> [] -> _promiseCache c' !! u = None) /\
  (ws = [] -> c' = c) /\
  (forall u', u' <> u ->
     _promiseCache c' !! u' = _promiseCache c !! u' /\
     _jsonCache c' !! u' = _jsonCache c !! u' /\
     _bufferCache c' !! u' = _bufferCache c !! u') /\
  (forallb isValuesWaiter ws = true -> _bufferCache c' = _bufferCache c) /\
  (forallb (fun w => negb (isValuesWaiter w)) ws = true ->
     _jsonCache c' = _jsonCache c).
Proof.
  induction ws as [|w ws IH]; intros c.
  - cbn. repeat split; done.
  - rewrite runWaiters_cons. cbn.
    destruct (runWaiter_fields u outcome c w) as (Hr & Hf & Hp & Hframe & Hv & Hb).
    destruct (IH (runWaiter u outcome c w).2)
      as (Hr' & Hf' & Hp' & Hnil' & Hframe' & Hv' & Hb').
    cbn in *.
    split; [congruence|]. split; [congruence|].
    split.
    { intros _. destruct ws as [|w' ws'].
      - by rewrite Hnil'.
      - by apply Hp'. }
    split; [done|].
    split.
    { intros u' Hne. destruct (Hframe' u' Hne) as (-> & -> & ->).
      by apply Hframe. }
    split.
    + intros [Hw Hws]%andb_prop. rewrite Hv' by done. by apply Hv.
    + intros [Hw Hws]%andb_prop. rewrite Hb' by done. apply Hb.
      by destruct (isValuesWaiter w).
Qed.

Lemma step_after (c : t) e : (step c e).2 = after c e.
Proof.
  destruct e as [options|uri|u outcome]; cbn.
  - unfold getExternalValues. destruct (definedJson _); [done|].
    by destruct (attach _ _ _ _).
  - unfold getExternalBuffer. destruct (_bufferCache c !! _); [done|].
    by destruct (attach _ _ _ _).
  - unfold settle. destruct (_promiseCache c !! u); [|done].
    by destruct (runWaiters _ _ _ _).
Qed.

Lemma run_cons (c : t) e trace :
  (run c (e :: trace)).2 = (run (after c e) trace).2.
Proof.
  cbn. rewrite <- step_after. destruct (step c e) as [r c1]. cbn.
  by destruct (run c1 trace).
Qed.



















(** Once no promise is registered for the resource, the handlers still to
    run change nothing. *)
Lemma runWaiter_settled u outcome (c : t) w :
  _promiseCache c !! u = None ->
  (runWaiter u outcome c w).2 = c.
Proof.
  intros HP. destruct w as [key|], outcome as [payload|]; cbn;
    unfold storeJson, storeBuffer; rewrite ?HP; try done.
  by destruct (getMember _ _).
Qed.

Lemma runWaiters_settled u outcome ws : forall (c : t),
  _promiseCache c !! u = None ->
  (runWaiters u outcome c ws).2 = c.
Proof.
  induction ws as [|w ws IH]; intros c HP; [done|].
  rewrite runWaiters_cons. cbn.
  rewrite runWaiter_settled by done. by apply IH.
Qed.

(** What the waiters that run after the first are handed on rejection. *)
Lemma runWaiters_settled_rejected u ws : forall (c : t),
  _promiseCache c !! u = None ->
  (runWaiters u Rejected c ws).1
  = (fun w => match w with
              | ValuesWaiter _ => DeliveredValue VUndefined
              | BufferWaiter => DeliveredBuffer (_bufferCache c !! u)
              end) <$> ws.
Proof.
  induction ws as [|w ws IH]; intros c HP; [done|].
  rewrite runWaiters_cons. cbn.
  rewrite runWaiter_settled by done. rewrite IH by done. f_equal.
  destruct w; cbn; unfold storeJson, storeBuffer; by rewrite ?HP.
Qed.

(** A call for a resource the cache holds nothing for starts its fetch. *)
Lemma getExternalBuffer_starts (c : t) uri :
  let u := getDerivedResource (_resource c) uri in
  _promiseCache c !! u = None ->
  _bufferCache c !! u = None ->
  exists c',
    getExternalBuffer c uri = (Promised u 0, c') /\
    _resource c' = _resource c /\
    _promiseCache c' !! u
    = Some {| fetch := FetchArrayBuffer; waiters := [BufferWaiter] |} /\
    fetched c' = (u, FetchArrayBuffer) :: fetched c.
Proof.
  intros u HP Hb. unfold getExternalBuffer. fold u. rewrite Hb.
  unfold attach. rewrite HP. cbn. eexists. split; [reflexivity|]. cbn.
  by rewrite lookup_insert_eq.
Qed.

Lemma getExternalValues_starts (c : t) uri key :
  let u := getDerivedResource (_resource c) uri in
  _promiseCache c !! u = None ->
  definedJson (_jsonCache c !! u) = false ->
  exists c',
    getExternalValues c {| FeatureProperty.uri := uri; FeatureProperty.key := key |}
    = (Promised u 0, c') /\
    _resource c' = _resource c /\
    _promiseCache c' !! u
    = Some {| fetch := FetchJson; waiters := [ValuesWaiter key] |} /\
    fetched c' = (u, FetchJson) :: fetched c.
Proof.
  intros u HP Hj. unfold getExternalValues. cbn. fold u. rewrite Hj.
  unfold attach. rewrite HP. cbn. eexists. split; [reflexivity|]. cbn.
  by rewrite lookup_insert_eq.
Qed.

(** A key that [Object.prototype] does not have reads [undefined] from the
    empty object. *)
Lemma inherited_absent key :
  key ∉ objectPrototype -> inherited objectChain key = VUndefined.
Proof.
  intros Hkey. unfold inherited, objectChain.
  case_bool_decide as Hproto.
  { subst key. exfalso. apply Hkey. vm_compute. set_solver. }
  cbn. by rewrite bool_decide_eq_false_2.
Qed.

(** C8, amended: when the fetch that [getExternalBuffer] started is
    rejected, the promise handed to that call resolves to a buffer of length
    zero, which the cache stores; the waiters that joined are handed the
    same buffer (or [undefined], for those of [getExternalValues]); a later
    call of [getExternalBuffer] for the resource returns the stored buffer,
    the cache, and with it the record of the fetches issued, staying as it
    is.  Likewise a rejected fetch that [getExternalValues] started resolves
    to [undefined], the cache stores the empty document, and a later call of
    [getExternalValues] for any key returns the member of the empty
    document, which is [undefined] for every key that is no member of
    [Object.prototype], issuing no fetch.  A call of the other method for
    the resource, which that method has not resolved, issues a fetch.  The
    location of the resource is not the name of a member of
    [Object.prototype]. *)
Theorem rejected_fetch_is_cached (c : t) uri P ws :
  let u := getDerivedResource (_resource c) uri in
  u ∉ objectPrototype ->
  _promiseCache c !! u = Some P ->
  (fetch P = FetchArrayBuffer ->
   waiters P = BufferWaiter :: ws ->
   exists ds c',
     settle c u Rejected = (DeliveredBuffer (Some []) :: ds, c') /\
     _bufferCache c' !! u = Some [] /\
     _promiseCache c' !! u = None /\
     fetched c' = fetched c /\
     Forall (fun d => d = DeliveredBuffer (Some []) \/ d = DeliveredValue VUndefined) ds /\
     getExternalBuffer c' uri = (Plain [], c') /\
     (definedJson (_jsonCache c !! u) = false ->
      forall key, exists c'',
        getExternalValues c'
          {| FeatureProperty.uri := uri; FeatureProperty.key := key |}
        = (Promised u 0, c'') /\
        fetched c'' = (u, FetchJson) :: fetched c)) /\
  (fetch P = FetchJson ->
   forall key, waiters P = ValuesWaiter key :: ws ->
   exists ds c',
     settle c u Rejected = (DeliveredValue VUndefined :: ds, c') /\
     _jsonCache c' !! u = Some (JObj []) /\
     _promiseCache c' !! u = None /\
     fetched c' = fetched c /\
     (forall key',
        getExternalValues c'
          {| FeatureProperty.uri := uri; FeatureProperty.key := key' |}
        = (Plain (inherited objectChain key'), c') /\
        (key' ∉ objectPrototype -> inherited objectChain key' = VUndefined)) /\
     (_bufferCache c !! u = None ->
      exists c'',
        getExternalBuffer c' uri = (Promised u 0, c'') /\
        fetched c'' = (u, FetchArrayBuffer) :: fetched c)).
Proof.
  intros u _ HP. split.
  - intros _ Hws.
    destruct (storeBuffer_fields c u []) as (Hr & Hjson & Hf & Hp & _ & Hb).
    cbn in *. rewrite HP in Hb.
    eexists _, _. split.
    { unfold settle. rewrite HP, Hws, runWaiters_cons. cbn.
      rewrite Hb. reflexivity. }
    rewrite runWaiters_settled by done.
    split; [done|]. split; [done|]. split; [done|]. split; [|split].
    + rewrite runWaiters_settled_rejected by done. rewrite Hb.
      apply Forall_fmap, Forall_forall. intros [key|] _; cbn; auto.
    + unfold getExternalBuffer. rewrite Hr. fold u. by rewrite Hb.
    + intros Hundefined key.
      destruct (getExternalValues_starts (storeBuffer c u []) uri key)
        as (c'' & Hget & _ & _ & Hfetched).
      * by rewrite Hr.
      * rewrite Hr. fold u. by rewrite Hjson.
      * rewrite Hr in Hget, Hfetched. fold u in Hget, Hfetched.
        exists c''. split; [done|]. by rewrite Hfetched, Hf.
  - intros _ key Hws.
    destruct (storeJson_fields c u (JObj [])) as (Hr & Hbuffer & Hf & Hp & _ & Hj).
    cbn in *. rewrite HP in Hj.
    eexists _, _. split.
    { unfold settle. rewrite HP, Hws, runWaiters_cons. cbn. reflexivity. }
    rewrite runWaiters_settled by done.
    split; [done|]. split; [done|]. split; [done|]. split.
    + intros key'. split; [|apply inherited_absent].
      unfold getExternalValues, cachedMember. cbn.
      rewrite Hr. fold u. by rewrite Hj.
    + intros Hnone.
      destruct (getExternalBuffer_starts (storeJson c u (JObj [])) uri)
        as (c'' & Hget & _ & _ & Hfetched).
      * by rewrite Hr.
      * rewrite Hr. fold u. by rewrite Hbuffer.
      * rewrite Hr in Hget, Hfetched. fold u in Hget, Hfetched.
        exists c''. split; [done|]. by rewrite Hfetched, Hf.
Qed.

Lemma rejected_fetch_is_cached_witness :
  (exists ds c',
     settle (getExternalBuffer (new "") "b.bin").2 "b.bin" Rejected
     = (DeliveredBuffer (Some []) :: ds, c') /\
     _bufferCache c' !! "b.bin" = Some [] /\
     getExternalBuffer c' "b.bin" = (Plain [], c')) /\
  (exists ds c',
     settle
       (getExternalValues (new "")
          {| FeatureProperty.uri := "v.json"; FeatureProperty.key := "k" |}).2
       "v.json" Rejected
     = (DeliveredValue VUndefined :: ds, c') /\
     _jsonCache c' !! "v.json" = Some (JObj []) /\
     getExternalValues c'
       {| FeatureProperty.uri := "v.json"; FeatureProperty.key := "other" |}
     = (Plain VUndefined, c') /\
     getExternalValues c'
       {| FeatureProperty.uri := "v.json"; FeatureProperty.key := "toString" |}
     = (Plain (VBuiltin "Object.prototype.toString"), c')).
Proof.
  split.
  - destruct (rejected_fetch_is_cached (getExternalBuffer (new "") "b.bin").2
                "b.bin" {| fetch := FetchArrayBuffer; waiters := [BufferWaiter] |}
                [] ltac:(apply (bool_decide_unpack _); vm_compute; exact I) eq_refl) as [Hbuffer _].
    destruct (Hbuffer eq_refl eq_refl)
      as (ds & c' & Hs & Hb & _ & _ & _ & Hget & _).
    by exists ds, c'.
  - destruct (rejected_fetch_is_cached
                (getExternalValues (new "")
                   {| FeatureProperty.uri := "v.json"; FeatureProperty.key := "k" |}).2
                "v.json" {| fetch := FetchJson; waiters := [ValuesWaiter "k"] |}
                [] ltac:(apply (bool_decide_unpack _); vm_compute; exact I) eq_refl) as [_ Hvalues].
    destruct (Hvalues eq_refl "k" eq_refl)
      as (ds & c' & Hs & Hj & _ & _ & Hget & _).
    exists ds, c'. split; [exact Hs|]. split; [exact Hj|].
    split; [exact (proj1 (Hget "other"))|exact (proj1 (Hget "toString"))].
Defined.

(** C8, as stated, fails for the requests that come through the other
    method: after the fetch that [getExternalBuffer] started for a resource
    was rejected and the empty buffer stored, [getExternalValues] for the
    same resource finds no document and issues a second fetch; and the
    other way round. *)
Lemma rejected_resource_is_fetched_again :
  (let c := (settle (getExternalBuffer (new "") "a").2 "a" Rejected).2 in
   _bufferCache c !! "a" = Some [] /\
   fetched c = [("a", FetchArrayBuffer)] /\
   (getExternalValues c
      {| FeatureProperty.uri := "a"; FeatureProperty.key := "k" |}).1
   = Promised "a" 0 /\
   fetched (getExternalValues c
              {| FeatureProperty.uri := "a"; FeatureProperty.key := "k" |}).2
   = [("a", FetchJson); ("a", FetchArrayBuffer)]) /\
  (let c := (settle (getExternalValues (new "")
                       {| FeatureProperty.uri := "a"; FeatureProperty.key := "k" |}).2
               "a" Rejected).2 in
   _jsonCache c !! "a" = Some (JObj []) /\
   fetched c = [("a", FetchJson)] /\
   (getExternalBuffer c "a").1 = Promised "a" 0 /\
   fetched (getExternalBuffer c "a").2
   = [("a", FetchArrayBuffer); ("a", FetchJson)]).
Proof. repeat split. Qed.

End Cache.

(** ** The feature table *)

Section TableProperties.
Import GltfFeatureTable.
Context `{DescriptorVariant}.
Variable createArrayBufferView :
  ComponentDatatype -> BufferSource.t -> Z -> nat -> Result (list Num).

(** [checkFeatureId] raises exactly for a negative id and for an id above
    [featureCount]. *)
Lemma checkFeatureId_raises featureId featureCount :
  succeeded (checkFeatureId featureId (Some featureCount)) = false
  <-> featureId < 0 \/ featureId > featureCount.
Proof.
  unfold checkFeatureId.
  destruct (Z.ltb_spec featureId 0), (Z.gtb_spec featureId featureCount); cbn;
    split; try done; try lia; intros [?|?]; lia.
Qed.

Lemma checkFeatureId_undefined featureId :
  succeeded (checkFeatureId featureId None) = false.
Proof. reflexivity. Qed.









End TableProperties.



(** C1: in the table of three features, the id 3 passes [checkFeatureId]:
    [getFeature] returns [undefined], [getPropertyValue] returns [undefined]
    and [setPropertyValue] writes a fourth element, none of them raising.
    The id 2 succeeds, the ids -1 and 4 raise. *)
Theorem featureId_equal_to_featureCount_is_accepted :
  GltfFeatureTable.checkFeatureId 3 (Some 3) = Ok () /\
  (tσ ← Sample.namesTable;
   r ← GltfFeatureTable.getFeature tσ.1 3; Ok r.1) = Ok None /\
  (tσ ← Sample.namesTable;
   GltfFeatureTable.getPropertyValue tσ.1 3 "name" None tσ.2) = Ok VUndefined /\
  (tσ ← Sample.namesTable;
   tσ' ← GltfFeatureTable.setPropertyValue tσ.1 3 "name" (VJson (JStr "d")) tσ.2;
   GltfFeatureTable.getPropertyValue tσ'.1 3 "name" None tσ'.2)
  = Ok (VJson (JStr "d")) /\
  (tσ ← Sample.namesTable;
   GltfFeatureTable.getPropertyValue tσ.1 2 "name" None tσ.2)
  = Ok (VJson (JStr "c")) /\
  (tσ ← Sample.namesTable;
   Ok (succeeded (GltfFeatureTable.getPropertyValue tσ.1 4 "name" None tσ.2),
       succeeded (GltfFeatureTable.getPropertyValue tσ.1 (-1) "name" None tσ.2)))
  = Ok (false, false).
Proof. repeat split; vm_compute; reflexivity. Qed.

(** * Further properties of the code *)

(** ** The binary property: construction *)

Section BinaryConstruction.
Import GltfFeatureTableAccessorProperty.
Variable createArrayBufferView :
  ComponentDatatype -> BufferSource.t -> Z -> nat -> Result (list Num).

(** What the constructor makes of the accessor, whenever it returns. *)
Lemma new_members options accessor p pending :
  FeatureProperty.accessor (Options.property options)
    ≫= (fun i => Gltf.accessors (Options.gltf options) !! i) = Some accessor ->
  new createArrayBufferView options = Ok (p, pending) ->
  _componentType p = Accessor.componentType accessor /\
  _componentCount p = BinaryAccessor.componentsPerAttribute (getBinaryAccessor accessor) /\
  _count p = Accessor.count accessor /\
  _classType p = BinaryAccessor.classType (getBinaryAccessor accessor) /\
  _signed p = isSignedComponentType (Accessor.componentType accessor) /\
  _normalized p
  = isNormalized (Accessor.normalized accessor) (Accessor.componentType accessor) /\
  _lowestValue p = getLowestValue (Accessor.componentType accessor) /\
  _maximumValue p = getMaximumValue (Accessor.componentType accessor) /\
  _name p = Options.name options.
Proof.
  intros Hacc. unfold new. rewrite Hacc. cbn.
  destruct (getBuffer _ _) as [buffer|]; cbn; [|done].
  destruct (getBufferSource _ _) as [source|]; cbn; [|done].
  destruct (getTypedArrayForAccessor _ _ _ _ _) as [typedArray|]; cbn; [|done].
  destruct typedArray, buffer; cbn; try (intros [= <- _]; done).
  destruct (CacheObject.getExternalBuffer _ _); cbn; [|done].
  by intros [= <- _].
Qed.

(** X1: a property built over a floating point component type is never
    normalized, whatever the accessor asks for: decoding and encoding leave
    every value as it is. *)
Theorem floating_point_is_never_normalized options accessor p pending value :
  FeatureProperty.accessor (Options.property options)
    ≫= (fun i => Gltf.accessors (Options.gltf options) !! i) = Some accessor ->
  isSignedComponentType (Accessor.componentType accessor) = false ->
  isUnsignedComponentType (Accessor.componentType accessor) = false ->
  new createArrayBufferView options = Ok (p, pending) ->
  _normalized p = false /\
  decodeValue p value = value /\
  encodeValue p value = value.
Proof.
  intros Hacc Hs Hu Hnew.
  destruct (new_members options accessor p pending Hacc Hnew)
    as (_ & _ & _ & _ & _ & Hn & _).
  assert (_normalized p = false) as Hfalse.
  { rewrite Hn. unfold isNormalized. rewrite Hs, Hu. apply andb_false_r. }
  unfold decodeValue, encodeValue. by rewrite Hfalse.
Qed.

(** X2: over a resident buffer the constructor binds a typed array that
    holds every byte of the buffer source, each converted to the component
    type, whatever the offsets and the count of the accessor; it asks the
    cache for nothing. *)
Theorem resident_buffer_is_bound_at_construction options accessor viewId view
    buffer extras pipeline source :
  FeatureProperty.accessor (Options.property options)
    ≫= (fun i => Gltf.accessors (Options.gltf options) !! i) = Some accessor ->
  Accessor.bufferView accessor = Some viewId ->
  Gltf.bufferViews (Options.gltf options) !! viewId = Some view ->
  Gltf.buffers (Options.gltf options) !! BufferView.buffer view = Some buffer ->
  Buffer.extras buffer = Some extras ->
  Buffer._pipeline extras = Some pipeline ->
  Buffer.source pipeline = Some source ->
  exists p typedArray,
    new Library.createArrayBufferView options = Ok (p, None) /\
    _typedArray p = Some typedArray /\
    length typedArray = length (BufferSource.bytes source) /\
    forall i byte, BufferSource.bytes source !! i = Some byte ->
      typedArray !! i = Some (toElement (Accessor.componentType accessor) (ofZ byte)).
Proof.
  intros Hacc Hview Hv Hb He Hp Hs. unfold new. rewrite Hacc. cbn.
  unfold getBufferSource, getBuffer, getTypedArrayForAccessor.
  rewrite Hview, Hv. cbn. rewrite Hb, He, Hp, Hs. cbn.
  eexists _, _. split; [reflexivity|]. split; [reflexivity|].
  split; [by rewrite length_fmap|].
  intros i byte Hbyte. by rewrite list_lookup_fmap, Hbyte.
Qed.

(** X3: the constructor raises a [TypeError] when the entry names no
    accessor of the document, and when the accessor names a buffer view the
    document does not have. *)
Theorem dangling_references_raise options :
  (FeatureProperty.accessor (Options.property options)
     ≫= (fun i => Gltf.accessors (Options.gltf options) !! i) = None ->
   new createArrayBufferView options = Throw TypeError) /\
  (forall accessor viewId,
     FeatureProperty.accessor (Options.property options)
       ≫= (fun i => Gltf.accessors (Options.gltf options) !! i) = Some accessor ->
     Accessor.bufferView accessor = Some viewId ->
     Gltf.bufferViews (Options.gltf options) !! viewId = None ->
     new createArrayBufferView options = Throw TypeError).
Proof.
  split.
  - intros Hacc. unfold new. by rewrite Hacc.
  - intros accessor viewId Hacc Hview Hv. unfold new. rewrite Hacc. cbn.
    unfold getBuffer. by rewrite Hview, Hv.
Qed.

End BinaryConstruction.

(** ** The binary property: reading and writing *)

Section BinaryReadWrite.
Import GltfFeatureTableAccessorProperty.


Lemma encodeValue_assign (p : t) typedArray flag value :
  encodeValue (assign p typedArray flag) value = encodeValue p value.
Proof. reflexivity. Qed.

Lemma decodeValue_assign (p : t) typedArray flag value :
  decodeValue (assign p typedArray flag) value = decodeValue p value.
Proof. reflexivity. Qed.

(** A write to a scalar property that holds a typed array. *)
Lemma setValue_scalar (p : t) featureId value typedArray :
  _initializedWithZeros p = false ->
  _componentCount p = 1%nat ->
  _typedArray p = Some typedArray ->
  setValue p featureId value
  = Ok (assign p
          (Some (<[featureId :=
                     toElement (_componentType p) (ToNumber (encodeValue p value))]>
                   typedArray))
          false).
Proof.
  intros Hz Hc Ht. unfold setValue. rewrite Hz, Ht, Hc. cbn.
  rewrite Nat.mul_1_r. unfold typedArraySet, encodeValue.
  destruct (_normalized p); cbn; by rewrite Hz.
Qed.

(** A read of a scalar property that holds a typed array. *)
Lemma getValue_scalar (p : t) featureId result typedArray :
  _initializedWithZeros p = false ->
  _componentCount p = 1%nat ->
  _typedArray p = Some typedArray ->
  getValue p featureId result
  = Ok (decodeValue p (typedArrayGet typedArray featureId)).
Proof.
  intros Hz Hc Ht. unfold getValue. rewrite Hz, Ht, Hc. cbn.
  rewrite Nat.mul_1_r. unfold decodeValue. by destruct (_normalized p).
Qed.

(** X4: whenever [setValue] returns, the flag [_initializedWithZeros] is
    cleared, and every member but the typed array is what it was: the
    component type, the counts, the class, the normalisation parameters, the
    name, the type and the extras. *)
Theorem setValue_keeps_the_layout (p : t) featureId value p' :
  setValue p featureId value = Ok p' ->
  _initializedWithZeros p' = false /\
  _componentType p' = _componentType p /\
  _componentCount p' = _componentCount p /\
  _count p' = _count p /\
  _classType p' = _classType p /\
  _signed p' = _signed p /\
  _normalized p' = _normalized p /\
  _lowestValue p' = _lowestValue p /\
  _maximumValue p' = _maximumValue p /\
  _name p' = _name p /\
  _semantic p' = _semantic p /\
  _type p' = _type p /\
  _extras p' = _extras p.
Proof.
  unfold setValue.
  destruct (_initializedWithZeros p) eqn:Hz; cbn.
  - destruct (_componentCount p =? 1)%nat;
      [destruct (_normalized p) eqn:Hn|];
      try (intros [= <-]; cbn; done).
    destruct (_classType p) eqn:Hclass; cbn; [|done].
    destruct (pack _ _ _ _ _); cbn; [|done]. by intros [= <-].
  - destruct (_typedArray p); [|by intros [= <-]].
    destruct (_componentCount p =? 1)%nat;
      [destruct (_normalized p) eqn:Hn|];
      try (intros [= <-]; cbn; done).
    destruct (_classType p) eqn:Hclass; cbn; [|done].
    destruct (pack _ _ _ _ _); cbn; [|done]. by intros [= <-].
Qed.


(** Decoding an integer raw value of a normalized property whose maximum is
    a positive integer. *)
Lemma decodeValue_integer (p : t) (m r : Z) :
  _normalized p = true ->
  _maximumValue p = ofZ m ->
  0 < m ->
  - m <= r ->
  decodeValue p (VNumber (ofZ r)) = VNumber (div (ofZ r) (ofZ m)).
Proof.
  intros Hn Hmax Hm Hr. unfold decodeValue.
  rewrite Hn, Hmax. cbn [negb ToNumber jsonToNumber VNumber].
  destruct (_signed p); [|done].
  f_equal. f_equal.
  unfold div, ofZ, qzero. cbn [Qnum inject_Z].
  destruct (Z.eqb_spec m 0) as [|_]; [lia|].
  unfold neg, max. cbn [inject_Z].
  destruct (Qle_bool _ _) eqn:Hle; [|done].
  f_equal. apply Qle_bool_iff in Hle.
  apply Qred_complete. rewrite !Qred_correct in Hle.
  destruct m as [|pm|pm]; try lia.
  unfold Qle, Qeq, Qdiv, Qmult, Qinv in *. cbn in *. lia.
Qed.

(** X6: for a normalized scalar property whose maximum is a positive
    integer [m], writing [r / m] and reading it back gives [r / m] exactly,
    for every integer [r] between [-m] and [m] that the element type
    holds. *)
Theorem normalized_write_then_read (p : t) (m r : Z) featureId typedArray result :
  _initializedWithZeros p = false ->
  _componentCount p = 1%nat ->
  _typedArray p = Some typedArray ->
  (featureId < length typedArray)%nat ->
  _normalized p = true ->
  _maximumValue p = ofZ m ->
  0 < m ->
  - m <= r <= m ->
  toElement (_componentType p) (ofZ r) = ofZ r ->
  exists p',
    setValue p featureId (VNumber (div (ofZ r) (ofZ m))) = Ok p' /\
    getValue p' featureId result = Ok (VNumber (div (ofZ r) (ofZ m))).
Proof.
  intros Hz Hc Ht Hlt Hn Hmax Hm Hr Hfits.
  eexists. split; [by apply setValue_scalar|].
  erewrite getValue_scalar; [|done..]. rewrite decodeValue_assign.
  unfold typedArrayGet. rewrite list_lookup_insert_eq by done.
  cbn [ofComponent].
  unfold encodeValue. rewrite Hn, Hmax. cbn [negb ToNumber jsonToNumber VNumber].
  rewrite div_mul_integer, round_integer by lia.
  rewrite Hfits. f_equal. apply decodeValue_integer; [done..|lia].
Qed.



End BinaryReadWrite.

(** ** The binary property: vectors and matrices *)

Section BinaryComposite.
Import GltfFeatureTableAccessorProperty.

(** The slots [pack] writes, and the slots it leaves alone. *)
Lemma pack_slots componentType (components : list Value) start :
  forall typedArray,
  (start + length components <= length typedArray)%nat ->
  let packed :=
    foldl (fun array ic =>
             typedArraySet componentType array (start + ic.1)
               (ToNumber ic.2))
          typedArray (imap (fun i c => (i, c)) components) in
  length packed = length typedArray /\
  (forall i c, components !! i = Some c ->
     packed !! (start + i)%nat
     = Some (toElement componentType (ToNumber c))) /\
  (forall j, (j < start \/ start + length components <= j)%nat ->
     packed !! j = typedArray !! j).
Proof.
  induction components as [|c components IH] using rev_ind; intros typedArray Hlen.
  - cbn. split; [done|]. split; [|done]. intros i c Hc. by destruct i.
  - rewrite length_app in Hlen. cbn in Hlen.
    destruct (IH typedArray ltac:(lia)) as (Hl & Hin & Hout).
    cbn. rewrite imap_app, foldl_app. cbn. rewrite Nat.add_0_r.
    unfold typedArraySet at 1 3 5.
    split; [by rewrite length_insert|]. split.
    + intros i c' Hc'.
      destruct (decide (i = length components)) as [->|Hne].
      * rewrite lookup_app_r in Hc' by done.
        rewrite Nat.sub_diag in Hc'. injection Hc' as <-.
        apply list_lookup_insert_eq. rewrite Hl. lia.
      * rewrite list_lookup_insert_ne by lia. apply Hin.
        apply lookup_lt_Some in Hc' as Hi. rewrite length_app in Hi. cbn in Hi.
        rewrite lookup_app_l in Hc' by lia. done.
    + intros j Hj. rewrite length_app in Hj. cbn in Hj.
      rewrite list_lookup_insert_ne by lia. apply Hout. lia.
Qed.

(** Reading consecutive slots gives back what they hold. *)
Lemma map_lookup_consecutive {A B : Type} (f : A -> B) (items : list A) :
  forall (slots : list B) start,
  (forall i x, items !! i = Some x -> slots !! (start + i)%nat = Some (f x)) ->
  map (fun i => slots !! (start + i)%nat) (seq 0 (length items))
  = map (fun x => Some (f x)) items.
Proof.
  induction items as [|x items IH]; intros slots start Hslots; [done|].
  cbn. f_equal.
  - apply (Hslots 0%nat x). done.
  - rewrite <- seq_shift, map_map.
    rewrite <- (IH slots (S start)).
    + apply map_ext. intros i. f_equal. lia.
    + intros i y Hy. replace (S start + i)%nat with (start + S i)%nat by lia.
      by apply Hslots.
Qed.

(** The components of an instance of the class itself. *)
Lemma packedComponents_same c (numbers : list Num) :
  length numbers = packedLength c ->
  packedComponents c (VComposite c (map Some numbers))
  = Ok (map VNumber numbers).
Proof.
  intros Hlen. unfold packedComponents. cbn [typeOf].
  change (negb (String.eqb "object" "object")) with false. cbn match.
  rewrite bool_decide_eq_true_2 by done. f_equal.
  rewrite <- Hlen. clear Hlen.
  change (map Some numbers) with (Some <$> numbers).
  transitivity (map (fun o : option Value => default VUndefined o)
                  (map (fun i => (VNumber <$> numbers) !! (0 + i)%nat)
                       (seq 0 (length numbers)))).
  { rewrite map_map. apply map_ext. intros i. cbn.
    rewrite !list_lookup_fmap. by destruct (numbers !! i). }
  rewrite (map_lookup_consecutive VNumber numbers (VNumber <$> numbers) 0).
  - rewrite map_map. by apply map_ext.
  - intros i x Hx. cbn. by rewrite list_lookup_fmap, Hx.
Qed.

(** A write and a read of a composite property that is not normalized. *)
Lemma setValue_composite (p : t) c featureId value typedArray packed :
  _initializedWithZeros p = false ->
  _normalized p = false ->
  _componentCount p <> 1%nat ->
  _classType p = Some c ->
  _typedArray p = Some typedArray ->
  pack (_componentType p) c value typedArray (featureId * _componentCount p)
  = Ok packed ->
  setValue p featureId value = Ok (assign p (Some packed) false).
Proof.
  intros Hz Hn Hc%Nat.eqb_neq Hclass Ht Hpack.
  unfold setValue. rewrite Hz, Ht, Hc, Hclass, Hn. cbn -[pack].
  rewrite Hpack. cbn. by rewrite Hz.
Qed.

Lemma getValue_composite (p : t) c featureId result typedArray :
  _initializedWithZeros p = false ->
  _normalized p = false ->
  _componentCount p <> 1%nat ->
  _classType p = Some c ->
  _typedArray p = Some typedArray ->
  getValue p featureId result
  = Ok (unpack c (Some <$> typedArray) (featureId * _componentCount p)).
Proof.
  intros Hz Hn Hc%Nat.eqb_neq Hclass Ht.
  unfold getValue. by rewrite Hz, Ht, Hc, Hclass, Hn.
Qed.

(** X9: a vector or a matrix written to a property that is not normalized
    is read back with each component converted to the element type of the
    typed array, when its slots lie within the typed array; the object the
    read is to fill, if one is given, is an instance of the class. *)
Theorem composite_write_then_read (p : t) c featureId (numbers : list Num)
    typedArray result :
  _initializedWithZeros p = false ->
  _normalized p = false ->
  _componentCount p <> 1%nat ->
  _classType p = Some c ->
  _typedArray p = Some typedArray ->
  length numbers = packedLength c ->
  (featureId * _componentCount p + packedLength c <= length typedArray)%nat ->
  (forall r, result = Some r -> GltfFeatureTable.instanceOf r c = true) ->
  exists p',
    setValue p featureId (VComposite c (map Some numbers)) = Ok p' /\
    getValue p' featureId result
    = Ok (VComposite c
            (map (fun x => Some (toElement (_componentType p) x)) numbers)).
Proof.
  intros Hz Hn Hc Hclass Ht Hlen Hrange _.
  set (start := (featureId * _componentCount p)%nat) in *.
  destruct (pack_slots (_componentType p) (map VNumber numbers) start typedArray)
    as (_ & Hin & _).
  { rewrite length_map. lia. }
  set (packed := foldl _ typedArray _) in *.
  assert (pack (_componentType p) c (VComposite c (map Some numbers)) typedArray
            start = Ok packed) as Hpack.
  { unfold pack. by rewrite packedComponents_same. }
  exists (assign p (Some packed) false).
  split; [by apply (setValue_composite p c featureId _ typedArray)|].
  erewrite getValue_composite; [|done..]. f_equal.
  cbn [assign _componentCount _componentType].
  unfold unpack. f_equal. fold start.
  rewrite <- Hlen.
  assert (forall i x, numbers !! i = Some x ->
            packed !! (start + i)%nat = Some (toElement (_componentType p) x))
    as Hslots.
  { intros i x Hx. apply (Hin i (VNumber x)).
    change (map VNumber numbers) with (VNumber <$> numbers).
    by rewrite list_lookup_fmap, Hx. }
  etransitivity;
    [|exact (map_lookup_consecutive (toElement (_componentType p)) numbers
               packed start Hslots)].
  apply map_ext. intros i. rewrite list_lookup_fmap.
  by destruct (packed !! (start + i)%nat).
Qed.

(** X10: the value a normalized signed property decodes is never below
    -1: it is NaN or at least -1, whatever the raw value and the maximum. *)
Theorem signed_decode_is_clamped (p : t) value :
  _normalized p = true ->
  _signed p = true ->
  exists n,
    decodeValue p value = VNumber n /\
    (n = NaN \/ leb (ofZ (-1)) n = true).
Proof.
  intros Hn Hs. unfold decodeValue. rewrite Hn, Hs. cbn [negb].
  eexists. split; [reflexivity|].
  change (neg (ofZ 1)) with (Fin (-1 # 1)).
  change (ofZ (-1)) with (Fin (-1 # 1)).
  destruct (div (ToNumber value) (_maximumValue p)) as [q| | |]; cbn; auto.
  right. destruct (Qle_bool q (-1 # 1)) eqn:Hle; cbn; [done|].
  apply Qle_bool_iff. apply Qlt_le_weak, Qnot_le_lt. intros H.
  apply Qle_bool_iff in H. congruence.
Qed.

End BinaryComposite.

(** ** The array property *)

Section ArrayExtras.
Import GltfFeatureTableArrayProperty.

Lemma arrayGet_arraySet_same (array : list Value) index value :
  arrayGet (arraySet array index value) index = value.
Proof.
  unfold arrayGet, arraySet. case_decide as Hlt.
  - by rewrite list_lookup_insert_eq.
  - rewrite lookup_app_r by lia.
    rewrite lookup_app_r by (rewrite length_replicate; lia).
    rewrite length_replicate, Nat.sub_diag. done.
Qed.

Lemma arrayGet_arraySet_other (array : list Value) index other value :
  other <> index ->
  arrayGet (arraySet array index value) other = arrayGet array other.
Proof.
  intros Hne. unfold arrayGet, arraySet. case_decide as Hlt.
  - by rewrite list_lookup_insert_ne.
  - destruct (decide (other < length array)%nat) as [Hin|Hout].
    + by rewrite lookup_app_l.
    + rewrite (lookup_ge_None_2 array other) by lia.
      rewrite lookup_app_r by lia.
      destruct (decide (other < index)%nat) as [Hbelow|Habove].
      * rewrite lookup_app_l by (rewrite length_replicate; lia).
        rewrite lookup_replicate_2 by lia. done.
      * rewrite lookup_app_r by (rewrite length_replicate; lia).
        rewrite length_replicate.
        rewrite lookup_ge_None_2; [done|]. cbn. lia.
Qed.

(** X11: an inline array is copied into a sequence of its own, at a
    location the store did not use; the property reads the value of each
    feature from it ([undefined] past its end) and is not shared with the
    cache; no other sequence of the store changes and the cache is not
    asked. *)
Theorem inline_array_is_copied options array values (σ : Store) :
  FeatureProperty.array (Options.property options) = Some array ->
  FeatureProperty.external array = None ->
  FeatureProperty.values array = Some values ->
  exists p l,
    new options σ = Ok (p, None, <[l := values]> σ) /\
    σ !! l = None /\
    _values p = Some l /\
    _fromCache p = false /\
    (forall i, getValue p i (<[l := values]> σ) = arrayGet values i) /\
    (forall l', l' <> l -> (<[l := values]> σ) !! l' = σ !! l').
Proof.
  intros Harray Hext Hvalues.
  exists (Build_t (Some (fresh (dom σ))) false (Options.name options)
            (FeatureProperty.semantic (Options.property options))
            (getTypeFromArrayType (FeatureProperty.type array))
            (clone (FeatureProperty.extras (Options.property options)))),
         (fresh (dom σ)).
  split.
  { unfold new. rewrite Harray. cbn. rewrite Hext, Hvalues. cbn.
    unfold clone at 1. by rewrite list_fmap_id. }
  split; [apply fresh_location_unused|]. split; [done|]. split; [done|]. split.
  - intros i. unfold getValue. cbn. by rewrite lookup_insert_eq.
  - intros l' Hne. by rewrite lookup_insert_ne.
Qed.

(** X12: a property built from an external array without inline values
    waits on the promise the cache returned: until its continuation runs,
    every read returns [undefined] and every write is dropped, property and
    store staying as they are; once the continuation has bound the sequence
    of the cache, reads come from that sequence and the property is marked
    as sharing it.  When the cache returns a plain value instead of a
    promise, the constructor raises a [TypeError]. *)
Theorem external_array_lifecycle options array external (σ : Store) :
  FeatureProperty.array (Options.property options) = Some array ->
  FeatureProperty.external array = Some external ->
  FeatureProperty.values array = None ->
  (forall id,
     CacheObject.getExternalValues (Options.cache options) external = ReplyPromise id ->
     exists p,
       new options σ = Ok (p, Some id, σ) /\
       (forall i σ', getValue p i σ' = VUndefined) /\
       (forall i value σ', setValue p i value σ' = (p, σ')) /\
       (forall l sequence i σ', σ' !! l = Some sequence ->
          getValue (bindExternalValues p (Some l)) i σ' = arrayGet sequence i /\
          _fromCache (bindExternalValues p (Some l)) = true)) /\
  (CacheObject.getExternalValues (Options.cache options) external = ReplyPlain ->
   new options σ = Throw TypeError).
Proof.
  intros Harray Hext Hvalues. split.
  - intros id Hreply. eexists. split.
    { unfold new. rewrite Harray. cbn. rewrite Hext, Hreply, Hvalues. cbn.
      reflexivity. }
    split; [done|]. split; [done|].
    intros l sequence i σ' Hl. split; [|done].
    unfold getValue. cbn. by rewrite Hl.
  - intros Hreply. unfold new. rewrite Harray. cbn. by rewrite Hext, Hreply.
Qed.

(** X13: the value written for a feature is the value read for it
    afterwards, and every other feature reads what it read before; this holds
    whether the sequence was shared with the cache or not, and for an id
    past the end of the sequence, which grows. *)
Theorem array_write_then_read (p : t) l sequence featureId value (σ : Store) :
  _values p = Some l ->
  σ !! l = Some sequence ->
  getValue (setValue p featureId value σ).1 featureId
    (setValue p featureId value σ).2 = value /\
  forall other, other <> featureId ->
    getValue (setValue p featureId value σ).1 other
      (setValue p featureId value σ).2
    = getValue p other σ.
Proof.
  intros Hv Hl. unfold setValue. rewrite Hv.
  destruct (_fromCache p) eqn:Hc; cbn.
  - rewrite lookup_insert_eq. cbn. unfold getValue. cbn.
    rewrite lookup_insert_eq, Hv, Hl. cbn. unfold clone.
    rewrite list_fmap_id. split.
    + apply arrayGet_arraySet_same.
    + intros other Hne. by apply arrayGet_arraySet_other.
  - unfold getValue. rewrite Hv, lookup_insert_eq, Hl. cbn. unfold clone. split.
    + apply arrayGet_arraySet_same.
    + intros other Hne. by apply arrayGet_arraySet_other.
Qed.

End ArrayExtras.

(** ** The cache: fulfilment and what stays untouched *)

Section CacheExtras.
Import GltfFeatureMetadataCache.

Lemma runWaiters_settled_fulfilled u payload ws : forall (c : t),
  _promiseCache c !! u = None ->
  (runWaiters u (Fulfilled payload) c ws).1 = laterDelivery c u payload <$> ws.
Proof.
  induction ws as [|w ws IH]; intros c HP; [done|].
  rewrite runWaiters_cons. cbn.
  rewrite runWaiter_settled by done. rewrite IH by done. f_equal.
  destruct w; cbn; unfold storeJson, storeBuffer, memberOf; rewrite ?HP; [|done].
  by destruct (getMember _ _).
Qed.

Lemma getMember_defined json key :
  json <> JNull -> getMember json key = Ok (memberOf json key).
Proof. intros Hjson. unfold memberOf. by destruct json. Qed.

Lemma definedJson_defined json : json <> JNull -> definedJson (Some json) = true.
Proof. by destruct json. Qed.

(** X14: when the fetch of a document that [getExternalValues] started is
    fulfilled with an object, the cache stores the object; the promise of
    that call resolves to the member under its key, and so do those of the
    calls that joined, each under its own key; a later call returns the
    member it asks for from the cache, which stays as it is, no fetch being
    issued.  The member is the one the object lists under the key, else the
    one it inherits from [Object.prototype], else [undefined].  The location
    of the resource is not the name of a member of [Object.prototype]. *)
Theorem fulfilled_document_is_cached (c : t) uri P key ws payload fields :
  let u := getDerivedResource (_resource c) uri in
  u ∉ objectPrototype ->
  _promiseCache c !! u = Some P ->
  waiters P = ValuesWaiter key :: ws ->
  asDocument payload = JObj fields ->
  exists c',
    settle c u (Fulfilled payload)
    = (DeliveredValue (memberOf (asDocument payload) key)
         :: (laterDelivery c u payload <$> ws), c') /\
    _jsonCache c' !! u = Some (asDocument payload) /\
    _promiseCache c' !! u = None /\
    _bufferCache c' = _bufferCache c /\
    fetched c' = fetched c /\
    forall key',
      getExternalValues c'
        {| FeatureProperty.uri := uri; FeatureProperty.key := key' |}
      = (Plain (memberOf (asDocument payload) key'), c') /\
      (forall v, (key', v) ∈ fields -> NoDup fields.*1 ->
         memberOf (asDocument payload) key' = VJson v) /\
      (key' ∉ fields.*1 -> key' ∉ objectPrototype ->
         memberOf (asDocument payload) key' = VUndefined).
Proof.
  intros u _ HP Hws Hobject.
  assert (asDocument payload <> JNull) as Hjson by (by rewrite Hobject).
  destruct (storeJson_fields c u (asDocument payload)) as (Hr & Hb & Hf & Hp & _ & Hj).
  cbn in *. rewrite HP in Hj.
  set (c1 := storeJson c u (asDocument payload)) in *.
  exists c1. split.
  { unfold settle. rewrite HP, Hws, runWaiters_cons. cbn.
    rewrite (getMember_defined _ key Hjson). cbn. fold c1.
    rewrite runWaiters_settled, runWaiters_settled_fulfilled by done.
    do 2 f_equal. apply list_fmap_ext. intros i w _.
    unfold laterDelivery. by rewrite Hb. }
  split; [done|]. split; [done|]. split; [done|]. split; [done|].
  intros key'. split; [|split].
  - unfold getExternalValues, cachedMember. cbn.
    rewrite Hr. fold u. rewrite Hj.
    rewrite (definedJson_defined _ Hjson).
    by rewrite (getMember_defined _ key' Hjson).
  - intros v Hin Hdup. unfold memberOf. rewrite Hobject. cbn.
    destruct (list_find _ fields) as [[i [k v']]|] eqn:Hfind.
    + apply list_find_Some in Hfind as (Hi & Hk%bool_decide_unpack & _).
      cbn in Hk. subst k. f_equal.
      apply list_elem_of_lookup in Hin as [i' Hi'].
      assert (i = i') as <-.
      { eapply NoDup_lookup; [exact Hdup|..];
          rewrite list_lookup_fmap; [by rewrite Hi|by rewrite Hi']. }
      congruence.
    + apply list_find_None in Hfind.
      rewrite Forall_forall in Hfind. specialize (Hfind _ Hin).
      exfalso. by apply Hfind, bool_decide_pack.
  - intros Hown Hinherited. unfold memberOf. rewrite Hobject. cbn.
    destruct (list_find _ fields) as [[i [k v']]|] eqn:Hfind.
    + apply list_find_Some in Hfind as (Hi & Hk%bool_decide_unpack & _).
      cbn in Hk. subst k. exfalso. apply Hown.
      apply list_elem_of_fmap. exists (key', v'). split; [done|].
      by eapply list_elem_of_lookup_2.
    + by apply inherited_absent.
Qed.

(** X15: when the fetch that [getExternalBuffer] started is fulfilled, the
    cache stores the bytes; the promise of that call and those of the calls
    of [getExternalBuffer] that joined resolve to them; a later call returns
    them from the cache, which stays as it is, no fetch being issued. *)
Theorem fulfilled_buffer_is_cached (c : t) uri P ws payload :
  let u := getDerivedResource (_resource c) uri in
  _promiseCache c !! u = Some P ->
  waiters P = BufferWaiter :: ws ->
  exists c',
    settle c u (Fulfilled payload)
    = (DeliveredBuffer (Some (asBytes payload))
         :: (laterDelivery c' u payload <$> ws), c') /\
    _bufferCache c' !! u = Some (asBytes payload) /\
    _promiseCache c' !! u = None /\
    _jsonCache c' = _jsonCache c /\
    fetched c' = fetched c /\
    getExternalBuffer c' uri = (Plain (asBytes payload), c').
Proof.
  intros u HP Hws.
  destruct (storeBuffer_fields c u (asBytes payload)) as (Hr & Hj & Hf & Hp & _ & Hb).
  cbn in *. rewrite HP in Hb.
  set (c1 := storeBuffer c u (asBytes payload)) in *.
  exists c1. split.
  { unfold settle. rewrite HP, Hws, runWaiters_cons. cbn. fold c1.
    rewrite runWaiters_settled, runWaiters_settled_fulfilled by done.
    by rewrite Hb. }
  split; [done|]. split; [done|]. split; [done|]. split; [done|].
  unfold getExternalBuffer. rewrite Hr. fold u. by rewrite Hb.
Qed.

(** X16: a fetch fulfilled with the document [null] is not cached: the
    promise of the call resolves to [undefined], the cache holds nothing it
    takes as resolved, and the next call for the resource issues another
    fetch. *)
Theorem null_document_is_fetched_again (c : t) uri P key ws payload :
  let u := getDerivedResource (_resource c) uri in
  _promiseCache c !! u = Some P ->
  waiters P = ValuesWaiter key :: ws ->
  asDocument payload = JNull ->
  exists ds c',
    settle c u (Fulfilled payload) = (DeliveredValue VUndefined :: ds, c') /\
    jsonResolved c' u = false /\
    inFlight c' u = false /\
    forall key', exists c'',
      getExternalValues c'
        {| FeatureProperty.uri := uri; FeatureProperty.key := key' |}
      = (Promised u 0, c'') /\
      fetched c'' = (u, FetchJson) :: fetched c.
Proof.
  intros u HP Hws Hnull.
  destruct (storeJson_fields c u JNull) as (Hr & Hb & Hf & Hp & _ & Hj).
  cbn in *. rewrite HP in Hj.
  set (c1 := storeJson c u JNull) in *.
  assert (storeJson c1 u (JObj []) = c1) as Hsame.
  { unfold storeJson at 1. by rewrite Hp. }
  eexists _, c1. split.
  { unfold settle. rewrite HP, Hws, runWaiters_cons. cbn. rewrite Hnull. cbn.
    fold c1. rewrite Hsame. rewrite runWaiters_settled by done. reflexivity. }
  split; [unfold jsonResolved; by rewrite Hj|].
  split; [unfold inFlight; by rewrite Hp|].
  intros key'.
  destruct (getExternalValues_starts c1 uri key') as (c'' & Hget & _ & _ & Hfetched).
  - by rewrite Hr.
  - rewrite Hr. fold u. by rewrite Hj.
  - rewrite Hr in Hget, Hfetched. fold u in Hget, Hfetched.
    exists c''. split; [done|]. by rewrite Hfetched, Hf.
Qed.

(** X17: a call never changes what the cache holds as resolved, and issues
    at most one fetch, for the resource it asks for; a settlement changes no
    entry of another resource, and issues no fetch. *)
Theorem requests_and_settlements_are_local (c : t) :
  (forall options,
     let c' := (getExternalValues c options).2 in
     _jsonCache c' = _jsonCache c /\ _bufferCache c' = _bufferCache c /\
     (fetched c' = fetched c \/
      fetched c'
      = (getDerivedResource (_resource c) (FeatureProperty.uri options), FetchJson)
          :: fetched c)) /\
  (forall uri,
     let c' := (getExternalBuffer c uri).2 in
     _jsonCache c' = _jsonCache c /\ _bufferCache c' = _bufferCache c /\
     (fetched c' = fetched c \/
      fetched c'
      = (getDerivedResource (_resource c) uri, FetchArrayBuffer) :: fetched c)) /\
  (forall u outcome,
     let c' := (settle c u outcome).2 in
     fetched c' = fetched c /\
     forall u', u' <> u ->
       _jsonCache c' !! u' = _jsonCache c !! u' /\
       _bufferCache c' !! u' = _bufferCache c !! u' /\
       _promiseCache c' !! u' = _promiseCache c !! u').
Proof.
  split; [|split].
  - intros options.
    pose proof (step_after c (RequestValues options)) as Hstep. cbn in Hstep.
    destruct (getExternalValues c options) as [reply c1]. cbn in *.
    subst c1. destruct (definedJson _); [auto|].
    destruct (attach_fields c
                (getDerivedResource (_resource c) (FeatureProperty.uri options))
                FetchJson (ValuesWaiter (FeatureProperty.key options)))
      as (_ & Hj & Hb & _ & _ & Hf & _).
    cbn in *. rewrite Hj, Hb, Hf. destruct (_promiseCache c !! _); auto.
  - intros uri.
    pose proof (step_after c (RequestBuffer uri)) as Hstep. cbn in Hstep.
    destruct (getExternalBuffer c uri) as [reply c1]. cbn in *.
    subst c1. destruct (_bufferCache c !! _); [auto|].
    destruct (attach_fields c (getDerivedResource (_resource c) uri)
                FetchArrayBuffer BufferWaiter)
      as (_ & Hj & Hb & _ & _ & Hf & _).
    cbn in *. rewrite Hj, Hb, Hf. destruct (_promiseCache c !! _); auto.
  - intros u outcome.
    pose proof (step_after c (Settle u outcome)) as Hstep. cbn in Hstep.
    destruct (settle c u outcome) as [ds c1]. cbn in *. subst c1.
    destruct (_promiseCache c !! u) as [P|]; [|done].
    destruct (runWaiters_fields u outcome (waiters P) c)
      as (_ & Hf & _ & _ & Hframe & _).
    cbn in *. split; [done|]. intros u' Hne.
    by destruct (Hframe u' Hne) as (-> & -> & ->).
Qed.

End CacheExtras.

(** ** The cache: resolved entries stay *)

Section CacheImmutability.
Import GltfFeatureMetadataCache.

Lemma waitersInvariant_new base : waitersInvariant (new base).
Proof. intros u P HP. cbn in HP. by rewrite lookup_empty in HP. Qed.

Lemma waitersInvariant_after (c : t) e :
  waitersInvariant c -> waitersInvariant (after c e).
Proof.
  intros Hinv. destruct e as [options|uri|u0 outcome]; cbn.
  - set (u0 := getDerivedResource (_resource c) (FeatureProperty.uri options)).
    destruct (definedJson (_jsonCache c !! u0)) eqn:Hdef; [done|].
    destruct (attach_fields c u0 FetchJson (ValuesWaiter (FeatureProperty.key options)))
      as (_ & Hj & Hb & Hframe & Hp & _).
    cbn in *. intros u P. rewrite Hj, Hb.
    destruct (decide (u = u0)) as [->|Hne].
    + rewrite Hp, Hdef. intros [= <-]. split; [done|]. cbn.
      intros Hbuf. rewrite forallb_app. cbn.
      destruct (_promiseCache c !! u0) as [P0|] eqn:HP0; cbn; [|done].
      destruct (Hinv u0 P0 HP0) as [_ Hall]. by rewrite Hall.
    + rewrite Hframe by done. apply Hinv.
  - set (u0 := getDerivedResource (_resource c) uri).
    destruct (_bufferCache c !! u0) eqn:Hhit; [done|].
    destruct (attach_fields c u0 FetchArrayBuffer BufferWaiter)
      as (_ & Hj & Hb & Hframe & Hp & _).
    cbn in *. intros u P. rewrite Hj, Hb.
    destruct (decide (u = u0)) as [->|Hne].
    + rewrite Hp, Hhit. intros [= <-]. split; [|by intros [? ?]]. cbn.
      intros Hdef. rewrite forallb_app. cbn.
      destruct (_promiseCache c !! u0) as [P0|] eqn:HP0; cbn; [|done].
      destruct (Hinv u0 P0 HP0) as [Hall _]. by rewrite Hall.
    + rewrite Hframe by done. apply Hinv.
  - destruct (_promiseCache c !! u0) as [P0|] eqn:HP0; [|done].
    destruct (runWaiters_fields u0 outcome (waiters P0) c)
      as (_ & _ & Hnone & Hnil & Hframe & _).
    cbn in *. intros u P.
    destruct (decide (u = u0)) as [->|Hne].
    + destruct (waiters P0) as [|w ws] eqn:Hws.
      * rewrite Hnil by done. rewrite HP0. intros [= <-]. rewrite Hws.
        by split.
      * by rewrite Hnone.
    + destruct (Hframe u Hne) as (-> & -> & ->). apply Hinv.
Qed.

(** One step leaves the resolved entries as they are. *)
Lemma resolved_after (c : t) e u :
  waitersInvariant c ->
  (definedJson (_jsonCache c !! u) = true ->
   _jsonCache (after c e) !! u = _jsonCache c !! u) /\
  (forall buffer, _bufferCache c !! u = Some buffer ->
   _bufferCache (after c e) !! u = Some buffer).
Proof.
  intros Hinv. destruct e as [options|uri|u0 outcome]; cbn.
  - set (u0 := getDerivedResource (_resource c) (FeatureProperty.uri options)).
    destruct (definedJson (_jsonCache c !! u0)); [done|].
    destruct (attach_fields c u0 FetchJson (ValuesWaiter (FeatureProperty.key options)))
      as (_ & Hj & Hb & _).
    cbn in *. by rewrite Hj, Hb.
  - set (u0 := getDerivedResource (_resource c) uri).
    destruct (_bufferCache c !! u0); [done|].
    destruct (attach_fields c u0 FetchArrayBuffer BufferWaiter)
      as (_ & Hj & Hb & _).
    cbn in *. by rewrite Hj, Hb.
  - destruct (_promiseCache c !! u0) as [P0|] eqn:HP0; [|done].
    destruct (runWaiters_fields u0 outcome (waiters P0) c)
      as (_ & _ & _ & _ & Hframe & Hv & Hb).
    cbn in *. destruct (decide (u = u0)) as [->|Hne].
    + destruct (Hinv u0 P0 HP0) as [Hjson Hbuf]. split.
      * intros Hdef. by rewrite Hb by auto.
      * intros buffer Hbuffer. rewrite Hv; [done|]. apply Hbuf. by eexists.
    + destruct (Hframe u Hne) as (_ & -> & ->). done.
Qed.

Lemma waitersInvariant_run trace : forall (c : t),
  waitersInvariant c -> waitersInvariant (run c trace).2.
Proof.
  induction trace as [|e trace IH]; intros c Hinv; [done|].
  rewrite run_cons. by apply IH, waitersInvariant_after.
Qed.

Lemma resolved_run more u : forall (c : t),
  waitersInvariant c ->
  (definedJson (_jsonCache c !! u) = true ->
   _jsonCache (run c more).2 !! u = _jsonCache c !! u) /\
  (forall buffer, _bufferCache c !! u = Some buffer ->
   _bufferCache (run c more).2 !! u = Some buffer).
Proof.
  induction more as [|e more IH]; intros c Hinv; [done|].
  rewrite run_cons.
  destruct (resolved_after c e u Hinv) as [Hjson Hbuffer].
  destruct (IH (after c e) (waitersInvariant_after c e Hinv)) as [Hjson' Hbuffer'].
  split.
  - intros Hdef. rewrite Hjson', Hjson; [done..|]. by rewrite Hjson.
  - intros buffer Hb. by apply Hbuffer', Hbuffer.
Qed.

(** X18: a resolved entry is never replaced: in a cache reached from the
    empty one by any requests and settlements, a document the cache holds as
    resolved, and a buffer it holds, are still there, the same, after any
    further requests and settlements, of whichever kind and outcome. *)
Theorem resolved_entries_stay base trace more u :
  let c := (run (new base) trace).2 in
  let c' := (run c more).2 in
  (jsonResolved c u = true -> _jsonCache c' !! u = _jsonCache c !! u) /\
  (forall buffer, _bufferCache c !! u = Some buffer ->
     _bufferCache c' !! u = Some buffer).
Proof.
  intros c c'. apply resolved_run, waitersInvariant_run, waitersInvariant_new.
Qed.

End CacheImmutability.

(** ** The feature table: validation *)

Section TableValidation.
Import GltfFeatureTable.
Context `{DescriptorVariant}.

Ltac decide_types :=
  repeat (case_bool_decide; try discriminate); cbn in *.

Ltac decide_typeof :=
  repeat match goal with
         | H : context [String.eqb ?a ?b] |- _ => destruct (String.eqb_spec a b)
         | |- context [String.eqb ?a ?b] => destruct (String.eqb_spec a b)
         end.

Lemma checkClass_succeeds what type value :
  succeeded (checkClass what type value) = true
  <-> forall c, expectedClass type = Some c -> instanceOf value c = true.
Proof.
  unfold checkClass. split.
  - destruct type; cbn; intros Hok c [= <-]; decide_types;
      by destruct (instanceOf value _).
  - intros Hc. destruct type; cbn; decide_types; try done;
      by rewrite (Hc _ eq_refl).
Qed.

(** X19: the setter hands a value on to the property exactly when the
    value has the shape the type of the property asks for: an instance of
    the class of a vector or matrix type, a string, number or boolean for
    these types, anything for the type that admits any value; otherwise it
    raises before the property is touched. *)
Theorem checkValue_accepts_matching_shapes type value :
  succeeded (checkValue type value) = true
  <-> (forall c, expectedClass type = Some c -> instanceOf value c = true) /\
      (forall n, expectedTypeOf type = Some n -> typeOf value = n).
Proof.
  unfold checkValue. split.
  - intros Hok. split.
    + apply (checkClass_succeeds "value"). by destruct (checkClass _ _ _).
    + destruct (checkClass "value" type value); cbn in Hok; [|done].
      destruct type; cbn in *; intros n [= <-]; decide_types;
        decide_typeof; done.
  - intros [Hc Hn]. apply (checkClass_succeeds "value") in Hc.
    destruct (checkClass "value" type value); cbn in *; [|done].
    destruct type; cbn in *; decide_types; try done;
      decide_typeof; try done; by specialize (Hn _ eq_refl).
Qed.

(** X20: the getter and the setter validate in a fixed order.  An id that
    [checkFeatureId] refuses raises its error whatever the name and the
    value; then a name of which the table has no property raises: the error
    of the unknown property (the table having no property named
    [__proto__]), or a [TypeError] when the name is that of a member of
    [Object.prototype]; then a result or a value of the wrong
    shape raises; only then is the property read or written. *)
Theorem validation_order (this : t) featureId name result value (σ : Store) :
  (forall e, checkFeatureId featureId (_featureCount this) = Throw e ->
     getPropertyValue this featureId name result σ = Throw e /\
     setPropertyValue this featureId name value σ = Throw e) /\
  (checkFeatureId featureId (_featureCount this) = Ok () ->
   _properties this !! name = None ->
     (name ∉ objectPrototype -> _properties this !! "__proto__" = None ->
      getPropertyValue this featureId name result σ = unknownProperty name /\
      setPropertyValue this featureId name value σ = unknownProperty name) /\
     (name ∈ objectPrototype ->
      getPropertyValue this featureId name result σ = Throw TypeError /\
      setPropertyValue this featureId name value σ = Throw TypeError)) /\
  (checkFeatureId featureId (_featureCount this) = Ok () ->
   forall property e, _properties this !! name = Some property ->
     (definedValue result = true ->
      checkClass "result" (propertyType property) (default VUndefined result)
      = Throw e ->
      getPropertyValue this featureId name result σ = Throw e) /\
     (checkValue (propertyType property) value = Throw e ->
      setPropertyValue this featureId name value σ = Throw e)).
Proof.
  unfold getPropertyValue, setPropertyValue. split; [|split].
  - intros e ->. done.
  - intros -> ->. cbn. unfold inheritedProperty. split; intros Hname.
    + intros _. by rewrite bool_decide_eq_false_2.
    + by rewrite bool_decide_eq_true_2.
  - intros -> property e ->. cbn. split.
    + intros -> ->. done.
    + intros ->. done.
Qed.

End TableValidation.

(** ** The feature table: features, reads and writes *)

Section TableAccess.
Import GltfFeatureTable.
Context `{DescriptorVariant}.

(** The getter reads the count and the properties of the table only. *)
Lemma getPropertyValue_features (this : t) features featureId name result σ :
  getPropertyValue
    {| _features := features;
       _properties := _properties this;
       _featureCount := _featureCount this;
       _name := _name this;
       _extras := _extras this |} featureId name result σ
  = getPropertyValue this featureId name result σ.
Proof. reflexivity. Qed.

Lemma checkFeatureId_in_range featureId featureCount :
  0 <= featureId < featureCount ->
  checkFeatureId featureId (Some featureCount) = Ok ().
Proof.
  intros Hr. unfold checkFeatureId.
  destruct (Z.ltb_spec featureId 0), (Z.gtb_spec featureId featureCount);
    cbn; try done; lia.
Qed.

Lemma features_lookup (featureCount featureId : Z) :
  0 <= featureId < featureCount ->
  ((fun i => GltfFeature.Build_t (Z.of_nat i)) <$> seq 0 (Z.to_nat featureCount))
    !! Z.to_nat featureId
  = Some (GltfFeature.Build_t featureId).
Proof.
  intros Hr. rewrite list_lookup_fmap, lookup_seq_lt by lia. cbn.
  by rewrite Z2Nat.id by lia.
Qed.

(** X21: on a table that has not created its features yet and whose
    [featureCount] is below [2^32], the largest length of an array,
    [getFeature]
    with an id from 0 to [featureCount - 1] creates one feature per id and
    returns the one for the id asked; the properties and the count of the
    table are what they were, and further calls on the table that comes back
    return the features created, the table staying as it is. *)
Theorem getFeature_creates_the_features_once (this : t) featureCount featureId :
  _featureCount this = Some featureCount ->
  _features this = None ->
  0 <= featureId < featureCount ->
  featureCount < 2 ^ 32 ->
  exists this',
    getFeature this featureId
    = Ok (Some (GltfFeature.Build_t featureId), this') /\
    length (default [] (_features this')) = Z.to_nat featureCount /\
    _properties this' = _properties this /\
    _featureCount this' = _featureCount this /\
    forall other, 0 <= other < featureCount ->
      getFeature this' other = Ok (Some (GltfFeature.Build_t other), this').
Proof.
  intros Hcount Hnone Hr Hmax. eexists. split.
  { unfold getFeature. rewrite Hcount, checkFeatureId_in_range by done. cbn.
    unfold createFeatures. rewrite Hnone, Hcount. cbn -[Z.pow].
    destruct (Z.ltb_spec featureCount 0); [lia|].
    destruct (Z.leb_spec (2 ^ 32) featureCount); [lia|]. cbn.
    destruct (Z.ltb_spec featureId 0); [lia|].
    by rewrite features_lookup. }
  cbn. split; [by rewrite length_fmap, length_seq|].
  split; [done|]. split; [done|].
  intros other Hother. unfold getFeature. cbn.
  destruct (Z.ltb_spec other 0); [lia|].
  destruct (Z.gtb_spec other featureCount); [lia|]. cbn.
  by rewrite features_lookup.
Qed.

(** X22: the property a feature returns is the one the table returns for
    the id of the feature: for the feature [getFeature] hands out for an id,
    [getProperty] is [getPropertyValue] of that id, on the table before and
    after the features were created. *)
Theorem feature_reads_through_its_table (this : t) featureId feature this'
    name result (σ : Store) :
  _features this = None ->
  getFeature this featureId = Ok (Some feature, this') ->
  getProperty this' feature name result σ
  = getPropertyValue this featureId name result σ /\
  getPropertyValue this' featureId name result σ
  = getPropertyValue this featureId name result σ.
Proof.
  intros Hnone Hget. unfold getFeature in Hget.
  destruct (checkFeatureId featureId (_featureCount this)) eqn:Hcheck; [|done].
  cbn in Hget. unfold createFeatures in Hget. rewrite Hnone in Hget.
  destruct (_featureCount this) as [featureCount|] eqn:Hcount; [|done].
  cbn -[Z.pow] in Hget.
  destruct (Z.ltb_spec featureCount 0); cbn -[Z.pow] in Hget; [done|].
  destruct (Z.leb_spec (2 ^ 32) featureCount); cbn in Hget; [done|].
  destruct (Z.ltb_spec featureId 0); [done|].
  injection Hget as Hlookup <-.
  apply list_lookup_fmap_Some in Hlookup as (i & -> & Hi).
  apply lookup_seq in Hi as [-> Hi]. cbn in *.
  unfold getProperty. cbn.
  rewrite Z2Nat.id by lia.
  split; unfold getPropertyValue; cbn; by rewrite Hcount.
Qed.

(** A write followed by a read of the same feature, on an array property. *)
Lemma array_setValue_then_getValue (p : GltfFeatureTableArrayProperty.t) l
    sequence index value (σ : Store) :
  GltfFeatureTableArrayProperty._values p = Some l ->
  σ !! l = Some sequence ->
  GltfFeatureTableArrayProperty.getValue
    (GltfFeatureTableArrayProperty.setValue p index value σ).1 index
    (GltfFeatureTableArrayProperty.setValue p index value σ).2 = value.
Proof.
  intros Hv Hl. unfold GltfFeatureTableArrayProperty.setValue. rewrite Hv.
  destruct (GltfFeatureTableArrayProperty._fromCache p) eqn:Hc; cbn.
  - rewrite lookup_insert_eq. cbn.
    unfold GltfFeatureTableArrayProperty.getValue. cbn.
    rewrite lookup_insert_eq. cbn. apply arrayGet_arraySet_same.
  - unfold GltfFeatureTableArrayProperty.getValue.
    rewrite Hv, lookup_insert_eq. cbn. apply arrayGet_arraySet_same.
Qed.

(** X23: through the table, a value written to an array property for a
    feature is the value read for that feature afterwards; the count of the
    table and its other properties are what they were. *)
Theorem table_write_then_read (this : t) featureId name value p l sequence
    (σ : Store) :
  checkFeatureId featureId (_featureCount this) = Ok () ->
  _properties this !! name = Some (ArrayProp p) ->
  GltfFeatureTableArrayProperty._values p = Some l ->
  σ !! l = Some sequence ->
  succeeded (checkValue (GltfFeatureTableArrayProperty._type p) value) = true ->
  exists this' σ',
    setPropertyValue this featureId name value σ = Ok (this', σ') /\
    getPropertyValue this' featureId name None σ' = Ok value /\
    _featureCount this' = _featureCount this /\
    forall other, other <> name ->
      _properties this' !! other = _properties this !! other.
Proof.
  intros Hcheck Hp Hv Hl Hvalue.
  pose proof (array_setValue_then_getValue p l sequence (Z.to_nat featureId)
                value σ Hv Hl) as Hread.
  destruct (GltfFeatureTableArrayProperty.setValue p (Z.to_nat featureId) value σ)
    as [p' σ'] eqn:Hset.
  exists (withProperty this name (ArrayProp p')), σ'. split.
  { unfold setPropertyValue. rewrite Hcheck, Hp. cbn.
    destruct (checkValue _ _); cbn in *; [|done]. by rewrite Hset. }
  split.
  { unfold getPropertyValue. cbn. rewrite Hcheck. cbn.
    rewrite lookup_insert_eq. cbn. by rewrite <- Hread. }
  split; [done|].
  intros other Hne. cbn. by rewrite lookup_insert_ne.
Qed.

(** X24: a write never changes the structure of the table: the names of
    its properties, the variant of each, the count, the features and the
    name are what they were, whenever [setPropertyValue] returns. *)
Theorem setPropertyValue_keeps_the_structure (this : t) featureId name value
    (σ : Store) this' σ' :
  setPropertyValue this featureId name value σ = Ok (this', σ') ->
  dom (_properties this') = dom (_properties this) /\
  (forall other property', _properties this' !! other = Some property' ->
     exists property, _properties this !! other = Some property /\
                      variantOf property' = variantOf property) /\
  _featureCount this' = _featureCount this /\
  _features this' = _features this /\
  _name this' = _name this.
Proof.
  unfold setPropertyValue.
  destruct (checkFeatureId _ _); cbn; [|done].
  destruct (_properties this !! name) as [property|] eqn:Hp;
    [|unfold inheritedProperty; by case_bool_decide].
  destruct (checkValue _ _); cbn; [|done].
  assert (forall property',
            variantOf property' = variantOf property ->
            dom (_properties (withProperty this name property'))
            = dom (_properties this) /\
            (forall other q, _properties (withProperty this name property') !! other
                             = Some q ->
               exists q0, _properties this !! other = Some q0 /\
                          variantOf q = variantOf q0)) as Hwith.
  { intros property' Hvariant. cbn. split.
    - rewrite dom_insert_L. apply subseteq_union_1_L, singleton_subseteq_l.
      by eapply elem_of_dom_2.
    - intros other q. destruct (decide (other = name)) as [->|Hne].
      + rewrite lookup_insert_eq. intros [= <-]. by exists property.
      + rewrite lookup_insert_ne by done. intros Hq. by exists q. }
  destruct property as [pd|pb|pa]; cbn.
  - destruct (descriptorSetValue _ _ _) as [d'|]; cbn; [|done]. intros [= <- <-].
    destruct (Hwith (DescriptorProp d')) as [Hdom Hvar]; done.
  - destruct (GltfFeatureTableAccessorProperty.setValue _ _ _) as [b'|];
      cbn; [|done].
    intros [= <- <-]. destruct (Hwith (BinaryProp b')) as [Hdom Hvar]; done.
  - destruct (GltfFeatureTableArrayProperty.setValue _ _ _ _) as [a' σ0].
    intros [= <- <-]. destruct (Hwith (ArrayProp a')) as [Hdom Hvar]; done.
Qed.

End TableAccess.

(** ** The feature table and the feature metadata: construction *)

Section TableConstruction.
Import GltfFeatureTable.
Context `{DescriptorVariant}.
Variable createArrayBufferView :
  ComponentDatatype -> BufferSource.t -> Z -> nat -> Result (list Num).



(** X26: the constructor of the feature metadata constructs every table of
    the document and keeps none: whenever it returns, [_featureTables] is
    [undefined]; it raises when the construction of a table raises, and a
    document without tables is constructed with the store as it is. *)
Theorem feature_metadata_keeps_no_table gltf featureMetadata cache (σ : Store) :
  (forall metadata σ',
     GltfFeatureMetadata.new createArrayBufferView gltf featureMetadata cache σ
     = Ok (metadata, σ') ->
     GltfFeatureMetadata._featureTables metadata = None) /\
  (forall featureTable rest e,
     FeatureMetadataJson.featureTables featureMetadata = Some (featureTable :: rest) ->
     new createArrayBufferView gltf featureTable cache σ = Throw e ->
     GltfFeatureMetadata.new createArrayBufferView gltf featureMetadata cache σ
     = Throw e) /\
  (FeatureMetadataJson.featureTables featureMetadata = Some [] ->
   GltfFeatureMetadata.new createArrayBufferView gltf featureMetadata cache σ
   = Ok ({| GltfFeatureMetadata._featureTables := None |}, σ)).
Proof.
  unfold GltfFeatureMetadata.new. split; [|split].
  - intros metadata σ'.
    destruct (FeatureMetadataJson.featureTables featureMetadata); [|done].
    destruct (GltfFeatureMetadata.forEachTable _ _ _ _ _); cbn; [|done].
    by intros [= <- _].
  - intros featureTable rest e -> Hthrow. cbn. by rewrite Hthrow.
  - by intros ->.
Qed.

End TableConstruction.

(** ** Instances of the further properties *)

Section BinaryInstances.
Import GltfFeatureTableAccessorProperty.

Lemma floating_point_is_never_normalized_witness :
  exists p pending,
    new Sample.uint8View (Sample.options Sample.floatDocument) = Ok (p, pending) /\
    _normalized p = false /\
    decodeValue p (VNumber (ofZ 5)) = VNumber (ofZ 5).
Proof.
  destruct (new Sample.uint8View (Sample.options Sample.floatDocument))
    as [[p pending]|] eqn:Hnew; [|vm_compute in Hnew; discriminate Hnew].
  exists p, pending. split; [reflexivity|].
  destruct (floating_point_is_never_normalized Sample.uint8View
              (Sample.options Sample.floatDocument)
              (Sample.accessor FLOAT 4 None None) p pending (VNumber (ofZ 5))
              eq_refl eq_refl eq_refl Hnew) as (Hn & Hd & _).
  split; assumption.
Defined.

Lemma resident_buffer_is_bound_at_construction_witness :
  exists p,
    new Library.createArrayBufferView (Sample.options Sample.longerDocument)
    = Ok (p, None) /\
    _typedArray p = Some [ofZ 7; ofZ 8; ofZ (-56)].
Proof.
  destruct (resident_buffer_is_bound_at_construction
              (Sample.options Sample.longerDocument) _ 0%nat _ _ _ _ _
              eq_refl eq_refl eq_refl eq_refl eq_refl eq_refl eq_refl)
    as (p & typedArray & Hnew & Harray & Hlength & Hbytes).
  exists p. split; [exact Hnew|]. rewrite Harray. f_equal.
  apply list_eq. intros [|[|[|i]]].
  - exact (Hbytes 0%nat 7 eq_refl).
  - exact (Hbytes 1%nat 8 eq_refl).
  - exact (Hbytes 2%nat 200 eq_refl).
  - cbn. apply lookup_ge_None_2. rewrite Hlength. cbn. lia.
Defined.

Lemma dangling_references_raise_witness :
  new Sample.uint8View (Sample.options Sample.emptyDocument) = Throw TypeError /\
  new Sample.uint8View (Sample.options Sample.danglingDocument) = Throw TypeError.
Proof.
  split.
  - apply (dangling_references_raise Sample.uint8View
             (Sample.options Sample.emptyDocument)). reflexivity.
  - eapply (dangling_references_raise Sample.uint8View
              (Sample.options Sample.danglingDocument)); reflexivity.
Defined.

Lemma setValue_keeps_the_layout_witness :
  exists p',
    setValue (Sample.boundScalar UNSIGNED_BYTE false [ofZ 1; ofZ 2]) 1
      (VNumber (ofZ 9)) = Ok p' /\
    _initializedWithZeros p' = false /\
    _componentType p' = UNSIGNED_BYTE.
Proof.
  destruct (setValue (Sample.boundScalar UNSIGNED_BYTE false [ofZ 1; ofZ 2]) 1
              (VNumber (ofZ 9))) as [p'|] eqn:Hset;
    [|vm_compute in Hset; discriminate Hset].
  exists p'. split; [reflexivity|].
  destruct (setValue_keeps_the_layout _ _ _ _ Hset) as (Hz & Hct & _).
  split; assumption.
Defined.


Lemma normalized_write_then_read_witness :
  exists p',
    setValue (Sample.boundScalar INT true [ofZ 0; ofZ 0]) 1
      (VNumber (div (ofZ 3) (ofZ 7))) = Ok p' /\
    getValue p' 1 None = Ok (VNumber (div (ofZ 3) (ofZ 7))).
Proof.
  apply (normalized_write_then_read (Sample.boundScalar INT true [ofZ 0; ofZ 0])
           7 3 1 [ofZ 0; ofZ 0] None);
    try reflexivity; cbn; lia.
Defined.



Lemma composite_write_then_read_witness :
  exists p',
    setValue (Sample.boundVector (replicate 6 (ofZ 0))) 1
      (VComposite Cartesian3 (map Some [ofZ 1; Fin (1 # 10); ofZ 3])) = Ok p' /\
    getValue p' 1 None
    = Ok (VComposite Cartesian3
            [Some (ofZ 1); Some (Fin (13421773 # 134217728)); Some (ofZ 3)]).
Proof.
  apply (composite_write_then_read (Sample.boundVector (replicate 6 (ofZ 0)))
           Cartesian3 1 [ofZ 1; Fin (1 # 10); ofZ 3] (replicate 6 (ofZ 0)) None);
    try reflexivity; [cbn; lia|intros r Hr; discriminate Hr].
Defined.

Lemma signed_decode_is_clamped_witness :
  exists n,
    decodeValue (Sample.boundScalar SHORT true []) (VNumber (ofZ (-5)))
    = VNumber n /\
    (n = NaN \/ leb (ofZ (-1)) n = true).
Proof.
  apply (signed_decode_is_clamped (Sample.boundScalar SHORT true [])
           (VNumber (ofZ (-5)))); reflexivity.
Defined.

End BinaryInstances.

Section ArrayInstances.
Import GltfFeatureTableArrayProperty.

Lemma inline_array_is_copied_witness :
  exists p l,
    new (Sample.arrayOptions (Sample.arrayEntry [VJson (JStr "a")])) ∅
    = Ok (p, None, <[l := [VJson (JStr "a")]]> ∅) /\
    _fromCache p = false /\
    getValue p 0 (<[l := [VJson (JStr "a")]]> ∅) = VJson (JStr "a") /\
    getValue p 1 (<[l := [VJson (JStr "a")]]> ∅) = VUndefined.
Proof.
  destruct (inline_array_is_copied
              (Sample.arrayOptions (Sample.arrayEntry [VJson (JStr "a")]))
              _ [VJson (JStr "a")] ∅ eq_refl eq_refl eq_refl)
    as (p & l & Hnew & _ & _ & Hc & Hread & _).
  exists p, l. split; [exact Hnew|]. split; [exact Hc|].
  split; apply Hread.
Defined.

Lemma external_array_lifecycle_witness :
  (exists p,
     new (Sample.arrayOptions Sample.externalEntry) ∅ = Ok (p, Some 0%nat, ∅) /\
     getValue p 0 Sample.namesStore = VUndefined /\
     setValue p 0 (VJson (JStr "z")) Sample.namesStore = (p, Sample.namesStore) /\
     getValue (bindExternalValues p (Some 0%nat)) 1 Sample.namesStore
     = VJson (JStr "b")) /\
  new {| Options.gltf := Sample.emptyDocument;
         Options.name := "name";
         Options.property := Sample.externalEntry;
         Options.cache := Sample.plainCache |} ∅ = Throw TypeError.
Proof.
  split.
  - destruct (external_array_lifecycle
                (Sample.arrayOptions Sample.externalEntry) _ _ ∅
                eq_refl eq_refl eq_refl) as [Hpromise _].
    destruct (Hpromise 0%nat eq_refl) as (p & Hnew & Hget & Hset & Hbound).
    exists p. split; [exact Hnew|]. split; [apply Hget|]. split; [apply Hset|].
    apply (Hbound 0%nat _ 1%nat Sample.namesStore eq_refl).
  - eapply (external_array_lifecycle
              {| Options.gltf := Sample.emptyDocument;
                 Options.name := "name";
                 Options.property := Sample.externalEntry;
                 Options.cache := Sample.plainCache |}); reflexivity.
Defined.

Lemma array_write_then_read_witness :
  getValue (setValue (Sample.names true) 5 (VJson (JStr "z")) Sample.namesStore).1 5
    (setValue (Sample.names true) 5 (VJson (JStr "z")) Sample.namesStore).2
  = VJson (JStr "z") /\
  getValue (setValue (Sample.names true) 5 (VJson (JStr "z")) Sample.namesStore).1 4
    (setValue (Sample.names true) 5 (VJson (JStr "z")) Sample.namesStore).2
  = VUndefined.
Proof.
  destruct (array_write_then_read (Sample.names true) 0 _ 5 (VJson (JStr "z"))
              Sample.namesStore eq_refl eq_refl) as [Hsame Hother].
  split; [exact Hsame|]. rewrite (Hother 4%nat); [reflexivity|lia].
Defined.

End ArrayInstances.

Section CacheInstances.
Import GltfFeatureMetadataCache.

Lemma fulfilled_document_is_cached_witness :
  exists c',
    settle Sample.awaitingDocument "v.json"
      (Fulfilled (Sample.documentPayload (JObj [("k", JNum (ofZ 1))])))
    = ([DeliveredValue (VNumber (ofZ 1))], c') /\
    getExternalValues c'
      {| FeatureProperty.uri := "v.json"; FeatureProperty.key := "k" |}
    = (Plain (VNumber (ofZ 1)), c').
Proof.
  destruct (fulfilled_document_is_cached Sample.awaitingDocument "v.json"
              {| fetch := FetchJson; waiters := [ValuesWaiter "k"] |} "k" []
              (Sample.documentPayload (JObj [("k", JNum (ofZ 1))]))
              [("k", JNum (ofZ 1))] ltac:(apply (bool_decide_unpack _); vm_compute; exact I) eq_refl eq_refl eq_refl)
    as (c' & Hsettle & _ & _ & _ & _ & Hget).
  exists c'. split; [exact Hsettle|]. exact (proj1 (Hget "k")).
Defined.

Lemma fulfilled_buffer_is_cached_witness :
  exists c',
    settle Sample.awaitingBuffer "b.bin" (Fulfilled (Sample.bytesPayload [1; 2]))
    = ([DeliveredBuffer (Some [1; 2])], c') /\
    _bufferCache c' !! "b.bin" = Some [1; 2] /\
    getExternalBuffer c' "b.bin" = (Plain [1; 2], c').
Proof.
  destruct (fulfilled_buffer_is_cached Sample.awaitingBuffer "b.bin"
              {| fetch := FetchArrayBuffer; waiters := [BufferWaiter] |} []
              (Sample.bytesPayload [1; 2]) eq_refl eq_refl)
    as (c' & Hsettle & Hb & _ & _ & _ & Hget).
  exists c'. split; [exact Hsettle|]. split; [exact Hb|exact Hget].
Defined.

Lemma null_document_is_fetched_again_witness :
  exists ds c' c'',
    settle Sample.awaitingDocument "v.json"
      (Fulfilled (Sample.documentPayload JNull))
    = (DeliveredValue VUndefined :: ds, c') /\
    jsonResolved c' "v.json" = false /\
    getExternalValues c'
      {| FeatureProperty.uri := "v.json"; FeatureProperty.key := "k" |}
    = (Promised "v.json" 0, c'') /\
    fetched c'' = [("v.json", FetchJson); ("v.json", FetchJson)].
Proof.
  destruct (null_document_is_fetched_again Sample.awaitingDocument "v.json"
              {| fetch := FetchJson; waiters := [ValuesWaiter "k"] |} "k" []
              (Sample.documentPayload JNull) eq_refl eq_refl eq_refl)
    as (ds & c' & Hsettle & Hres & _ & Hnext).
  destruct (Hnext "k") as (c'' & Hget & Hfetched).
  exists ds, c', c''. split; [exact Hsettle|]. split; [exact Hres|].
  split; [exact Hget|exact Hfetched].
Defined.

Lemma resolved_entries_stay_witness :
  _bufferCache
    (run (run (new "")
            [RequestBuffer "b.bin";
             Settle "b.bin" (Fulfilled (Sample.bytesPayload [1; 2]))]).2
       [RequestValues {| FeatureProperty.uri := "b.bin"; FeatureProperty.key := "k" |};
        Settle "b.bin" (Fulfilled (Sample.bytesPayload [9]))]).2 !! "b.bin"
  = Some [1; 2].
Proof.
  apply (resolved_entries_stay ""
           [RequestBuffer "b.bin";
            Settle "b.bin" (Fulfilled (Sample.bytesPayload [1; 2]))]
           [RequestValues {| FeatureProperty.uri := "b.bin"; FeatureProperty.key := "k" |};
            Settle "b.bin" (Fulfilled (Sample.bytesPayload [9]))] "b.bin").
  reflexivity.
Defined.

End CacheInstances.

Section TableInstances.
Import GltfFeatureTable.

Lemma validation_order_witness :
  (exists e, checkFeatureId 4 (Some 3) = Throw e /\
     getPropertyValue Sample.smallTable 4 "nothing" None Sample.namesStore
     = Throw e) /\
  setPropertyValue Sample.smallTable 1 "nothing" (VNumber (ofZ 1)) Sample.namesStore
  = unknownProperty "nothing" /\
  getPropertyValue Sample.smallTable 1 "toString" None Sample.namesStore
  = Throw TypeError /\
  setPropertyValue Sample.smallTable 1 "name" (VNumber (ofZ 1)) Sample.namesStore
  = Throw (DeveloperError "value must be a string").
Proof.
  destruct (validation_order Sample.smallTable 4 "nothing" None
              (VNumber (ofZ 1)) Sample.namesStore) as (Hid & _ & _).
  destruct (validation_order Sample.smallTable 1 "nothing" None
              (VNumber (ofZ 1)) Sample.namesStore) as (_ & Hname & _).
  destruct (validation_order Sample.smallTable 1 "toString" None
              (VNumber (ofZ 1)) Sample.namesStore) as (_ & Hinherited & _).
  destruct (validation_order Sample.smallTable 1 "name" None
              (VNumber (ofZ 1)) Sample.namesStore) as (_ & _ & Hshape).
  split; [|split; [|split]].
  - destruct (checkFeatureId 4 (Some 3)) as [|e] eqn:Hcheck;
      [vm_compute in Hcheck; discriminate Hcheck|].
    exists e. split; [reflexivity|]. apply (Hid e Hcheck).
  - apply (Hname eq_refl eq_refl); [|reflexivity].
    intros Hin. apply (bool_decide_pack _) in Hin. vm_compute in Hin. exact Hin.
  - apply (Hinherited eq_refl eq_refl).
    by apply (bool_decide_unpack _).
  - apply (Hshape eq_refl (ArrayProp (Sample.names false)) _ eq_refl).
    reflexivity.
Defined.

Lemma getFeature_creates_the_features_once_witness :
  exists this',
    getFeature Sample.smallTable 2 = Ok (Some (GltfFeature.Build_t 2), this') /\
    length (default [] (_features this')) = 3%nat /\
    getFeature this' 0 = Ok (Some (GltfFeature.Build_t 0), this').
Proof.
  destruct (getFeature_creates_the_features_once Sample.smallTable 3 2
              eq_refl eq_refl)
    as (this' & Hget & Hlength & _ & _ & Hagain); [lia..|].
  exists this'. split; [exact Hget|]. split; [exact Hlength|].
  apply Hagain. lia.
Defined.

Lemma feature_reads_through_its_table_witness :
  exists feature this',
    getFeature Sample.smallTable 1 = Ok (Some feature, this') /\
    getProperty this' feature "name" None Sample.namesStore
    = Ok (VJson (JStr "b")).
Proof.
  destruct (getFeature Sample.smallTable 1) as [[[feature|] this']|] eqn:Hget;
    try (vm_compute in Hget; discriminate Hget).
  exists feature, this'. split; [reflexivity|].
  destruct (feature_reads_through_its_table Sample.smallTable 1 feature this'
              "name" None Sample.namesStore eq_refl Hget) as [Hread _].
  rewrite Hread. reflexivity.
Defined.

Lemma table_write_then_read_witness :
  exists this' σ',
    setPropertyValue Sample.smallTable 1 "name" (VJson (JStr "z")) Sample.namesStore
    = Ok (this', σ') /\
    getPropertyValue this' 1 "name" None σ' = Ok (VJson (JStr "z")).
Proof.
  destruct (table_write_then_read Sample.smallTable 1 "name" (VJson (JStr "z"))
              (Sample.names false) 0%nat
              [VJson (JStr "a"); VJson (JStr "b"); VJson (JStr "c")]
              Sample.namesStore eq_refl eq_refl eq_refl eq_refl eq_refl)
    as (this' & σ' & Hset & Hget & _).
  exists this', σ'. split; [exact Hset|exact Hget].
Defined.

Lemma setPropertyValue_keeps_the_structure_witness :
  exists this' σ',
    setPropertyValue Sample.smallTable 3 "name" (VJson (JStr "d")) Sample.namesStore
    = Ok (this', σ') /\
    dom (_properties this') = dom (_properties Sample.smallTable) /\
    _featureCount this' = Some 3.
Proof.
  destruct (setPropertyValue Sample.smallTable 3 "name" (VJson (JStr "d"))
              Sample.namesStore) as [[this' σ']|] eqn:Hset;
    [|vm_compute in Hset; discriminate Hset].
  exists this', σ'. split; [reflexivity|].
  destruct (setPropertyValue_keeps_the_structure _ _ _ _ _ _ _ Hset)
    as (Hdom & _ & Hcount & _).
  split; [exact Hdom|exact Hcount].
Defined.


Lemma feature_metadata_keeps_no_table_witness :
  exists metadata σ',
    GltfFeatureMetadata.new (H := Sample.stubDescriptor) Sample.uint8View
      Sample.heightDocument
      {| FeatureMetadataJson.featureTables :=
           Some [Sample.tableJson Sample.mixedEntries (Some 1)] |}
      Sample.promisingCache ∅ = Ok (metadata, σ') /\
    GltfFeatureMetadata._featureTables metadata = None.
Proof.
  destruct (GltfFeatureMetadata.new (H := Sample.stubDescriptor) Sample.uint8View
              Sample.heightDocument
              {| FeatureMetadataJson.featureTables :=
                   Some [Sample.tableJson Sample.mixedEntries (Some 1)] |}
              Sample.promisingCache ∅) as [[metadata σ']|] eqn:Hnew;
    [|vm_compute in Hnew; discriminate Hnew].
  exists metadata, σ'. split; [reflexivity|].
  destruct (feature_metadata_keeps_no_table (H := Sample.stubDescriptor)
              Sample.uint8View Sample.heightDocument
              {| FeatureMetadataJson.featureTables :=
                   Some [Sample.tableJson Sample.mixedEntries (Some 1)] |}
              Sample.promisingCache ∅) as [Hreturns _].
  exact (Hreturns metadata σ' Hnew).
Defined.

End TableInstances.

Section ValidationInstances.
Import GltfFeatureTable.

Lemma checkValue_accepts_matching_shapes_witness :
  succeeded (checkValue GltfFeatureTablePropertyType.VEC2 (ZERO Cartesian2)) = true /\
  instanceOf (VJson (JStr "a")) Cartesian3 = false /\
  succeeded (checkValue GltfFeatureTablePropertyType.STRING (VJson (JStr "a"))) = true.
Proof.
  split; [|split; [reflexivity|]].
  - apply (checkValue_accepts_matching_shapes
             GltfFeatureTablePropertyType.VEC2 (ZERO Cartesian2)).
    split.
    + intros c Hc. injection Hc as <-. reflexivity.
    + intros n Hn. discriminate Hn.
  - apply (checkValue_accepts_matching_shapes
             GltfFeatureTablePropertyType.STRING (VJson (JStr "a"))).
    split.
    + intros c Hc. discriminate Hc.
    + intros n Hn. injection Hn as <-. reflexivity.
Defined.

Lemma requests_and_settlements_are_local_witness :
  GltfFeatureMetadataCache._jsonCache
    (GltfFeatureMetadataCache.settle Sample.awaitingDocument "v.json"
       (GltfFeatureMetadataCache.Rejected)).2 !! "w.json"
  = GltfFeatureMetadataCache._jsonCache Sample.awaitingDocument !! "w.json" /\
  GltfFeatureMetadataCache.fetched
    (GltfFeatureMetadataCache.settle Sample.awaitingDocument "v.json"
       (GltfFeatureMetadataCache.Rejected)).2
  = GltfFeatureMetadataCache.fetched Sample.awaitingDocument.
Proof.
  destruct (requests_and_settlements_are_local Sample.awaitingDocument)
    as (_ & _ & Hsettle).
  destruct (Hsettle "v.json" GltfFeatureMetadataCache.Rejected) as [Hfetched Hother].
  split; [|exact Hfetched].
  apply (Hother "w.json"). discriminate.
Defined.

End ValidationInstances.
